(** * stripebuttons: the payment-event ledger and the Stripe webhook processor

    A shallow embedding of
      - [src/lib/products.ts]                      (the product catalogue),
      - [src/lib/db.ts]                            ([sql], the schema of [initializeDbSchema]),
      - [src/app/api/webhooks/stripe/route.ts]     ([recordPurchaseEvent], [updateUserPoints], [POST]),
      - [src/app/api/checkout_sessions/route.ts]   ([POST], the Checkout Initiator),
      - [src/app/api/log-cancellation/route.ts]    ([POST]),
      - [src/app/api/admin/user/points], [user/events], [events/all] ([GET]),
      - [src/app/api/auth/login], [auth/logout]    ([POST]),
      - [src/middleware.ts]                        ([middleware]),
    followed by the properties of the ledger and of the points balance.

    The two PostgreSQL tables are explicit state; every [await sql(...)]
    is a step of a small state-and-exception monad, so that the
    [try { ... } catch { ... }] blocks of the handlers can be written as
    they stand in the source.  A statement is run against the schema of
    [initializeDbSchema]: the driver sends an [undefined] parameter as
    NULL; the server refuses a text parameter that contains U+0000,
    cuts a value that is too long for its [VARCHAR(n)] column when only
    spaces are cut off and refuses it otherwise, and rejects a row that
    breaks a NOT NULL or a UNIQUE constraint.  A string is a well-formed
    Unicode text, held as the UTF-8 bytes the driver sends.  Requests
    are handled one at a time.  Console output is not part of the
    model. *)

From Stdlib Require Import ZArith String Ascii List Lia Bool DecimalString.
From Stdlib Require Import Sorting.Permutation Sorting.Sorted.
From stdpp Require Import base option gmap strings list.

Import ListNotations.
Local Open Scope string_scope.
Local Open Scope Z_scope.
Set Warnings "-register-all".

(** ** JavaScript values *)

Module Js.

(** A [number]: the integers that occur here, and [NaN], which
    [parseInt] returns when no digit is found. *)
Inductive number : Type :=
| NaN
| Num (z : Z).

(** The JSON values the handlers build and store. *)
Inductive json : Type :=
| JNull
| JBool (b : bool)
| JNum (z : Z)
| JStr (s : string)
| JObj (fields : list (string * json)).

(** An object literal whose property values may be [undefined];
    [JSON.stringify] and [NextResponse.json] drop such properties. *)
Definition obj (fields : list (string * option json)) : json :=
  JObj (omap (fun kv => match snd kv with
                        | Some v => Some (fst kv, v)
                        | None => None
                        end) fields).

(** [!!s] for [s : string | null | undefined]: the empty string is falsy. *)
Definition truthy (s : option string) : bool :=
  match s with
  | Some EmptyString => false
  | Some _ => true
  | None => false
  end.

(** The string itself when it is truthy. *)
Definition present (s : option string) : option string :=
  if truthy s then s else None.

(** [a || b] on [string | null | undefined]. *)
Definition or (a b : option string) : option string :=
  if truthy a then a else b.

(** [a || 'literal']. *)
Definition or_else (a : option string) (b : string) : string :=
  match present a with
  | Some s => s
  | None => b
  end.

(** The white space and line terminators of one byte: U+0009 to
    U+000D and U+0020. *)
Definition is_space (c : ascii) : bool :=
  let n := N_of_ascii c in
  (n =? 32)%N || ((9 <=? n)%N && (n <=? 13)%N).

(** Those of two bytes: U+00A0. *)
Definition is_space2 (c1 c2 : ascii) : bool :=
  (N_of_ascii c1 =? 194)%N && (N_of_ascii c2 =? 160)%N.

(** Those of three bytes: U+1680, U+2000 to U+200A, U+2028, U+2029,
    U+202F, U+205F, U+3000 and U+FEFF. *)
Definition is_space3 (c1 c2 c3 : ascii) : bool :=
  let '(n1, n2, n3) := (N_of_ascii c1, N_of_ascii c2, N_of_ascii c3) in
  ((n1 =? 225) && (n2 =? 154) && (n3 =? 128))%N
  || ((n1 =? 226) && (n2 =? 128)
      && (((128 <=? n3) && (n3 <=? 138)) || (n3 =? 168) || (n3 =? 169) || (n3 =? 175)))%N
  || ((n1 =? 226) && (n2 =? 129) && (n3 =? 159))%N
  || ((n1 =? 227) && (n2 =? 128) && (n3 =? 128))%N
  || ((n1 =? 239) && (n2 =? 187) && (n3 =? 191))%N.

Definition digit_of (c : ascii) : option Z :=
  let n := Z.of_N (N_of_ascii c) in
  if (48 <=? n) && (n <=? 57) then Some (n - 48) else None.

Fixpoint skip_spaces (s : string) : string :=
  match s with
  | String c1 rest1 =>
      if is_space c1 then skip_spaces rest1
      else
        match rest1 with
        | String c2 rest2 =>
            if is_space2 c1 c2 then skip_spaces rest2
            else
              match rest2 with
              | String c3 rest3 => if is_space3 c1 c2 c3 then skip_spaces rest3 else s
              | EmptyString => s
              end
        | EmptyString => s
        end
  | EmptyString => s
  end.

(** The value of the longest prefix of decimal digits; [None] when the
    prefix is empty. *)
Fixpoint digits (s : string) (acc : option Z) : option Z :=
  match s with
  | String c rest =>
      match digit_of c with
      | Some d => digits rest (Some (10 * default 0 acc + d))
      | None => acc
      end
  | EmptyString => acc
  end.

(** [parseInt(s, 10)]: leading white space is skipped (the white space
    and line terminator characters of the language, in their UTF-8
    form), then an optional sign, then the longest run of digits;
    anything after it is ignored.  The value is kept exact: a [number]
    loses precision only above 2^53, far outside the range of an
    [INTEGER] column. *)
Definition parseInt (s : string) : number :=
  let s := skip_spaces s in
  let '(sign, s) :=
    match s with
    | String "-"%char rest => (-1, rest)
    | String "+"%char rest => (1, rest)
    | _ => (1, s)
    end in
  match digits s None with
  | Some n => Num (sign * n)
  | None => NaN
  end.

(** [n.toString()] and [`${n}`] for an integer. *)
Definition toString (z : Z) : string :=
  match z with
  | Z0 => "0"
  | Zpos p => NilEmpty.string_of_uint (Pos.to_uint p)
  | Zneg p => "-" ++ NilEmpty.string_of_uint (Pos.to_uint p)
  end.

End Js.

Export Js (json(..)).

(** ** src/lib/products.ts *)

Record Product : Type := mkProduct {
  p_id : string;
  p_name : string;
  p_price : Z;   (* in euros *)
  p_points : Z
}.

Definition products : list Product :=
  [ mkProduct "prod_20euro" "Product 20 Euro" 20 10;
    mkProduct "prod_35euro" "Product 35 Euro" 35 20;
    mkProduct "prod_50euro" "Product 50 Euro" 50 30 ].

(** [products.find(p => p.id === id)] *)
Definition getProductById (id : string) : option Product :=
  List.find (fun p => String.eqb (p_id p) id) products.

(** ** src/lib/db.ts: the schema and the statements run against it *)

Module Pg.

(** What [sql] can throw: the pool cannot reach the server, or the
    server rejects the statement (the SQLSTATE is given in the comment). *)
Inductive error : Type :=
| connection_failure
| character_not_in_repertoire                  (* 22021 *)
| invalid_text_representation                  (* 22P02 *)
| numeric_value_out_of_range                   (* 22003 *)
| untranslatable_character                     (* 22P05 *)
| string_data_right_truncation (n : nat)       (* 22001 *)
| not_null_violation (column : string)         (* 23502 *)
| unique_violation (constraint : string).      (* 23505 *)

(** A name between double quotes. *)
Definition quoted (s : string) : string :=
  String (ascii_of_nat 34) (s ++ String (ascii_of_nat 34) EmptyString).

(** [error.message], as the handlers put it in a response.  For the
    two errors of an integer parameter the server goes on to quote the
    text it was given; no response of the repository shows them. *)
Definition message (e : error) : string :=
  match e with
  | connection_failure => "Connection terminated unexpectedly"
  | character_not_in_repertoire =>
      "invalid byte sequence for encoding " ++ quoted "UTF8" ++ ": 0x00"
  | invalid_text_representation => "invalid input syntax for type integer"
  | numeric_value_out_of_range => "integer out of range"
  | untranslatable_character => "unsupported Unicode escape sequence"
  | string_data_right_truncation n =>
      "value too long for type character varying(" ++ Js.toString (Z.of_nat n) ++ ")"
  | not_null_violation column =>
      "null value in column " ++ quoted column ++ " of relation "
      ++ quoted "purchase_events" ++ " violates not-null constraint"
  | unique_violation constraint =>
      "duplicate key value violates unique constraint " ++ quoted constraint
  end.

(** The range of an [INTEGER] column. *)
Definition int4 (z : Z) : bool := (- 2 ^ 31 <=? z) && (z <? 2 ^ 31).

(** A [number | undefined] parameter bound to an [INTEGER] column: the
    driver sends [undefined] as NULL and a number as its [toString()],
    which the server parses.  A number of 10^21 or more is printed
    with an exponent, which is no integer syntax. *)
Definition integer (n : option Js.number) : error + option Z :=
  match n with
  | None => inr None
  | Some Js.NaN => inl invalid_text_representation
  | Some (Js.Num z) =>
      if int4 z then inr (Some z)
      else if Z.abs z <? 10 ^ 21 then inl numeric_value_out_of_range
      else inl invalid_text_representation
  end.

(** A text parameter is refused when it contains U+0000. *)
Fixpoint text (s : string) : bool :=
  match s with
  | EmptyString => true
  | String c rest => negb (Ascii.eqb c Ascii.zero) && text rest
  end.

Definition bind_text (s : string) : error + string :=
  if text s then inr s else inl character_not_in_repertoire.

Definition bind_text_opt (s : option string) : error + option string :=
  match s with
  | Some s => if text s then inr (Some s) else inl character_not_in_repertoire
  | None => inr None
  end.

(** A [JSONB] parameter is the text of [JSON.stringify], which writes
    U+0000 as an escape; the server refuses the escape, in a string as
    in the name of a property. *)
Fixpoint jsonb (j : json) : bool :=
  match j with
  | JStr s => text s
  | JObj fields => forallb (fun '(key, value) => text key && jsonb value) fields
  | _ => true
  end.

Definition bind_jsonb (j : option json) : error + option json :=
  match j with
  | Some j => if jsonb j then inr (Some j) else inl untranslatable_character
  | None => inr None
  end.

(** A byte that continues a character of several bytes. *)
Definition continuation (c : ascii) : bool :=
  let n := N_of_ascii c in (128 <=? n)%N && (n <? 192)%N.

(** The number of characters of a UTF-8 string: the bytes that are
    not continuation bytes. *)
Fixpoint char_length (s : string) : nat :=
  match s with
  | EmptyString => O
  | String c rest => ((if continuation c then 0 else 1) + char_length rest)%nat
  end.

(** The first [n] characters of a string, and what follows them. *)
Fixpoint clip (n : nat) (s : string) : string * string :=
  match s with
  | EmptyString => (EmptyString, EmptyString)
  | String c rest =>
      if continuation c
      then (String c (fst (clip n rest)), snd (clip n rest))
      else
        match n with
        | O => (EmptyString, s)
        | S n' => (String c (fst (clip n' rest)), snd (clip n' rest))
        end
  end.

Fixpoint blank (s : string) : bool :=
  match s with
  | EmptyString => true
  | String c rest => Ascii.eqb c " "%char && blank rest
  end.

(** A value stored into a [VARCHAR(n)] column: a value of more than
    [n] characters is cut to [n] characters when only spaces are cut
    off, and refused otherwise. *)
Definition varchar (n : nat) (s : string) : error + string :=
  if blank (snd (clip n s)) then inr (fst (clip n s))
  else inl (string_data_right_truncation n).

Definition varchar_opt (n : nat) (s : option string) : error + option string :=
  match s with
  | Some s =>
      match varchar n s with
      | inr stored => inr (Some stored)
      | inl e => inl e
      end
  | None => inr None
  end.

(** The value is a text the server takes and stores as it is. *)
Definition fits (n : nat) (s : string) : bool :=
  text s && (char_length s <=? n)%nat.

Definition fits_opt (n : nat) (s : option string) : bool :=
  match s with
  | Some s => fits n s
  | None => true
  end.

End Pg.

(** A row of [purchase_events]:
<<
      id SERIAL PRIMARY KEY,
      timestamp TIMESTAMPTZ DEFAULT CURRENT_TIMESTAMP,
      email VARCHAR(255) NOT NULL,
      product_id VARCHAR(100),
      stripe_session_id VARCHAR(255) UNIQUE,
      status VARCHAR(50) NOT NULL,
      seller_id INTEGER NOT NULL DEFAULT 0,
      points_awarded INTEGER,
      details JSONB
>>
    [stripe_session_id] is nullable in the schema, but every statement
    of the repository supplies a string for it.  Time is counted in
    ticks of the database clock. *)
Record PurchaseEvent : Type := mkPurchaseEvent {
  pe_id : nat;
  pe_timestamp : nat;
  pe_email : string;
  pe_product_id : option string;
  pe_stripe_session_id : string;
  pe_status : string;
  pe_seller_id : Z;
  pe_points_awarded : option Z;
  pe_details : option json
}.

(** A row of [user_points], without its primary key [email]:
<<
      email VARCHAR(255) PRIMARY KEY,
      total_points INTEGER DEFAULT 0 NOT NULL,
      last_updated TIMESTAMPTZ DEFAULT CURRENT_TIMESTAMP
>> *)
Record UserPoints : Type := mkUserPoints {
  total_points : Z;
  last_updated : nat
}.

(** The database: the two tables and the sequence behind
    [purchase_events.id]. *)
Record Db : Type := mkDb {
  purchase_events : list PurchaseEvent;
  purchase_events_id_seq : nat;
  user_points : gmap string UserPoints
}.

(** The state after [initializeDbSchema] on a new database. *)
Definition empty_db : Db := mkDb [] 1 ∅.

(** The parameters [$1 .. $7] of the statement of [recordPurchaseEvent],
    which are also the fields of its argument:
<<
  email: string; productId?: string; seller_id?: number;
  stripeSessionId: string; status: string; pointsAwarded?: number;
  details?: object;
>> *)
Record PurchaseEventData : Type := mkData {
  email : string;
  productId : option string;
  seller_id : option Js.number;
  stripeSessionId : string;
  status : string;
  pointsAwarded : option Z;
  details : option json
}.

(** The parameters of the [INSERT] of the cancellation log. *)
Record CancellationData : Type := mkCancellation {
  c_email : string;
  c_product_id : string;
  c_points_awarded : Z;
  c_stripe_session_id : string;
  c_status : string;
  c_details : json
}.

(** The statements the handlers send through [sql]. *)
Inductive Statement : Type :=
| upsert_purchase_event (data : PurchaseEventData)
| upsert_user_points (email : string) (pointsToAdd : Z)
| insert_cancellation (data : CancellationData).

(** The parameters of a statement are read, and fitted to their
    columns, one after the other; the first that is refused ends it. *)
#[local] Instance error_bind : MBind (sum Pg.error) :=
  fun A B k x =>
    match x with
    | inl e => inl e
    | inr a => k a
    end.

Module Exec.

(** [DO UPDATE SET status = EXCLUDED.status, details = EXCLUDED.details,
    product_id = EXCLUDED.product_id, seller_id = EXCLUDED.seller_id,
    points_awarded = EXCLUDED.points_awarded] *)
Definition do_update (excluded row : PurchaseEvent) : PurchaseEvent :=
  {| pe_id := pe_id row;
     pe_timestamp := pe_timestamp row;
     pe_email := pe_email row;
     pe_product_id := pe_product_id excluded;
     pe_stripe_session_id := pe_stripe_session_id row;
     pe_status := pe_status excluded;
     pe_seller_id := pe_seller_id excluded;
     pe_points_awarded := pe_points_awarded excluded;
     pe_details := pe_details excluded |}.

(** [INSERT ... ON CONFLICT (stripe_session_id) DO UPDATE]: the row
    holding the key is updated in place; without one the proposed row
    is added. *)
Fixpoint on_conflict (excluded : PurchaseEvent) (rows : list PurchaseEvent)
  : list PurchaseEvent :=
  match rows with
  | [] => [excluded]
  | row :: rest =>
      if String.eqb (pe_stripe_session_id row) (pe_stripe_session_id excluded)
      then do_update excluded row :: rest
      else row :: on_conflict excluded rest
  end.

Definition has_session (sid : string) (rows : list PurchaseEvent) : bool :=
  existsb (fun row => String.eqb (pe_stripe_session_id row) sid) rows.

Definition next_id (d : Db) : Db :=
  mkDb (purchase_events d) (S (purchase_events_id_seq d)) (user_points d).

Definition set_purchase_events (rows : list PurchaseEvent) (d : Db) : Db :=
  mkDb rows (purchase_events_id_seq d) (user_points d).

Definition set_user_points (m : gmap string UserPoints) (d : Db) : Db :=
  mkDb (purchase_events d) (purchase_events_id_seq d) m.

(** What the server makes of the parameters [$1 .. $7] of the statement
    of [recordPurchaseEvent], before the statement runs.  The
    parameters are read one after the other when the statement is
    bound: a text must not contain U+0000, an integer must parse, the
    JSON must be one the server can store.  Then the texts are fitted
    to their columns.  The result is the data with its texts as they
    will be stored, and the two integers. *)
Definition parameters (data : PurchaseEventData)
  : Pg.error + (PurchaseEventData * option Z * option Z) :=
  email ← Pg.bind_text (email data);
  productId ← Pg.bind_text_opt (productId data);
  seller ← Pg.integer (seller_id data);
  stripeSessionId ← Pg.bind_text (stripeSessionId data);
  status ← Pg.bind_text (status data);
  points ← Pg.integer (option_map Js.Num (pointsAwarded data));
  details ← Pg.bind_jsonb (details data);
  email ← Pg.varchar 255 email;
  productId ← Pg.varchar_opt 100 productId;
  stripeSessionId ← Pg.varchar 255 stripeSessionId;
  status ← Pg.varchar 50 status;
  inr (mkData email productId (seller_id data) stripeSessionId status (pointsAwarded data)
         details,
       seller, points).

(** The row proposed for insertion. *)
Definition proposed (id now : nat) (data : PurchaseEventData) (seller : Z) (points : option Z)
  : PurchaseEvent :=
  {| pe_id := id;
     pe_timestamp := now;
     pe_email := email data;
     pe_product_id := productId data;
     pe_stripe_session_id := stripeSessionId data;
     pe_status := status data;
     pe_seller_id := seller;
     pe_points_awarded := points;
     pe_details := details data |}.

(** The statement of [recordPurchaseEvent]:
<<
INSERT INTO purchase_events (email, product_id, seller_id, stripe_session_id, status, points_awarded, details)
VALUES ($1, $2, $3, $4, $5, $6, $7)
ON CONFLICT (stripe_session_id) DO UPDATE SET ...
>>
    A statement whose parameters are refused does not run.  When it
    runs, the proposed row takes its [id] from the sequence (which is
    not given back when the statement fails) and its [timestamp] from
    the clock, and is checked against the NOT NULL constraints before
    the conflict on [stripe_session_id] is looked at.  [seller_id] is
    listed among the columns, so a NULL parameter is a NULL in the
    proposed row: the column default only stands in for a column that
    is left out. *)
Definition purchase_event_upsert (now : nat) (data : PurchaseEventData) (d : Db)
  : Db * option Pg.error :=
  match parameters data with
  | inl e => (d, Some e)
  | inr (stored, seller, points) =>
      let id := purchase_events_id_seq d in
      let d := next_id d in
      match seller with
      | None => (d, Some (Pg.not_null_violation "seller_id"))
      | Some seller =>
          (set_purchase_events
             (on_conflict (proposed id now stored seller points) (purchase_events d)) d,
           None)
      end
  end.

(** The statement of [updateUserPoints]:
<<
INSERT INTO user_points (email, total_points, last_updated)
VALUES ($1, $2, CURRENT_TIMESTAMP)
ON CONFLICT (email) DO UPDATE
SET total_points = user_points.total_points + $2, last_updated = CURRENT_TIMESTAMP;
>>
    The row is kept under the email as the column stores it. *)
Definition user_points_upsert (now : nat) (email : string) (pointsToAdd : Z) (d : Db)
  : Db * option Pg.error :=
  match (email ← Pg.bind_text email;
         points ← Pg.integer (Some (Js.Num pointsToAdd));
         Pg.varchar 255 email) with
  | inl e => (d, Some e)
  | inr email =>
      match user_points d !! email with
      | None =>
          (set_user_points (<[email := mkUserPoints pointsToAdd now]> (user_points d)) d, None)
      | Some row =>
          let total := total_points row + pointsToAdd in
          if Pg.int4 total
          then (set_user_points (<[email := mkUserPoints total now]> (user_points d)) d, None)
          else (d, Some Pg.numeric_value_out_of_range)
      end
  end.

(** What the server makes of the parameters [$1 .. $6] of the statement
    of the cancellation log. *)
Definition cancellation_parameters (data : CancellationData) : Pg.error + CancellationData :=
  email ← Pg.bind_text (c_email data);
  productId ← Pg.bind_text (c_product_id data);
  points ← Pg.integer (Some (Js.Num (c_points_awarded data)));
  stripeSessionId ← Pg.bind_text (c_stripe_session_id data);
  status ← Pg.bind_text (c_status data);
  details ← Pg.bind_jsonb (Some (c_details data));
  email ← Pg.varchar 255 email;
  productId ← Pg.varchar 100 productId;
  stripeSessionId ← Pg.varchar 255 stripeSessionId;
  status ← Pg.varchar 50 status;
  inr (mkCancellation email productId (c_points_awarded data) stripeSessionId status
         (c_details data)).

(** The statement of the cancellation log, a plain [INSERT]:
<<
INSERT INTO purchase_events
  (email, product_id, points_awarded, stripe_session_id, status, timestamp, details)
VALUES ($1, $2, $3, $4, $5, NOW(), $6)
>>
    [seller_id] is left out and takes its default 0; a row that
    already holds the session id violates the UNIQUE constraint. *)
Definition cancellation_insert (now : nat) (data : CancellationData) (d : Db)
  : Db * option Pg.error :=
  match cancellation_parameters data with
  | inl e => (d, Some e)
  | inr stored =>
      let id := purchase_events_id_seq d in
      let d := next_id d in
      if has_session (c_stripe_session_id stored) (purchase_events d)
      then (d, Some (Pg.unique_violation "purchase_events_stripe_session_id_key"))
      else
        let row :=
          {| pe_id := id;
             pe_timestamp := now;
             pe_email := c_email stored;
             pe_product_id := Some (c_product_id stored);
             pe_stripe_session_id := c_stripe_session_id stored;
             pe_status := c_status stored;
             pe_seller_id := 0;
             pe_points_awarded := Some (c_points_awarded stored);
             pe_details := Some (c_details stored) |} in
        (set_purchase_events (purchase_events d ++ [row]) d, None)
  end.

Definition statement (now : nat) (stmt : Statement) (d : Db) : Db * option Pg.error :=
  match stmt with
  | upsert_purchase_event data => purchase_event_upsert now data d
  | upsert_user_points email pointsToAdd => user_points_upsert now email pointsToAdd d
  | insert_cancellation data => cancellation_insert now data d
  end.

End Exec.

(** ** The handlers' monad: state and exceptions *)

(** The world a handler runs in: the database, its clock, and what is
    going to happen to the next connections to it ([true]: the
    connection fails; nothing listed: it succeeds). *)
Record World : Type := mkWorld {
  db : Db;
  clock : nat;
  outages : list bool
}.

Inductive completion (A : Type) : Type :=
| Ok (a : A)
| Throw (e : Pg.error).
Arguments Ok {A} a.
Arguments Throw {A} e.

Definition M (A : Type) : Type := World -> completion A * World.

Definition ret {A} (a : A) : M A := fun w => (Ok a, w).

Definition bind {A B} (m : M A) (k : A -> M B) : M B :=
  fun w =>
    match m w with
    | (Ok a, w') => k a w'
    | (Throw e, w') => (Throw e, w')
    end.

(** [try { body } catch (e) { handler }] *)
Definition try_catch {A} (body : M A) (handler : Pg.error -> M A) : M A :=
  fun w =>
    match body w with
    | (Ok a, w') => (Ok a, w')
    | (Throw e, w') => handler e w'
    end.

(** [await m; k], for an awaited call whose value is not used. *)
Notation "'await' m ';;' k" := (bind m (fun _ => k))
  (at level 10, m at level 99, k at level 200).

(** [sql(query, params)]: take a connection from the pool, run the
    statement, release the connection; a failure of either step is
    thrown to the caller. *)
Definition sql (stmt : Statement) : M unit :=
  fun w =>
    match outages w with
    | true :: rest => (Throw Pg.connection_failure, mkWorld (db w) (S (clock w)) rest)
    | _ =>
        let '(d, e) := Exec.statement (clock w) stmt (db w) in
        (match e with
         | Some e => Throw e
         | None => Ok tt
         end,
         mkWorld d (S (clock w)) (tail (outages w)))
    end.

(** ** HTTP responses *)

Record Response : Type := mkResponse {
  resp_body : json;
  resp_status : nat
}.

Module NextResponse.
(** [NextResponse.json(body)] answers 200; [NextResponse.json(body, { status })]
    answers with the given status. *)
Definition json (body : Js.json) : Response := mkResponse body 200.
Definition json_status (body : Js.json) (status : nat) : Response := mkResponse body status.
End NextResponse.

(** ** The objects of the payment provider that the handlers read *)

Module Stripe.

Record CustomerDetails : Type := mkCustomerDetails {
  cd_email : option string
}.

(** [Stripe.Checkout.Session].  [payment_intent] is a string, an
    expanded object or null, and is only copied into [details]. *)
Record CheckoutSession : Type := mkSession {
  cs_id : string;
  cs_metadata : option (gmap string string);
  cs_customer_details : option CustomerDetails;
  cs_payment_intent : json
}.

(** [PaymentIntent.customer]: [string | Customer | DeletedCustomer | null];
    only a [Customer] has an [email] property, which may be null. *)
Inductive Customer : Type :=
| customer_null
| customer_id (id : string)
| customer_object (email : option string)
| customer_deleted.

(** [PaymentIntent.latest_charge]: [string | Charge | null]. *)
Inductive LatestCharge : Type :=
| charge_null
| charge_id (id : string)
| charge_object (id : string).

Record LastPaymentError : Type := mkLastPaymentError {
  message : option string
}.

Record PaymentIntent : Type := mkPaymentIntent {
  pi_id : string;
  pi_receipt_email : option string;
  pi_customer : Customer;
  pi_last_payment_error : option LastPaymentError;
  pi_latest_charge : LatestCharge;
  pi_status : string;
  pi_amount : Z;
  pi_currency : string
}.

(** [Stripe.Event], by [event.type]; [event.data.object] is the
    argument. *)
Inductive Event : Type :=
| checkout_session_completed (session : CheckoutSession)
| payment_intent_payment_failed (paymentIntent : PaymentIntent)
| unhandled (type : string).

(** [session.metadata?.key] *)
Definition metadata (session : CheckoutSession) (key : string) : option string :=
  match cs_metadata session with
  | Some m => m !! key
  | None => None
  end.

(** [session.customer_details?.email] *)
Definition customer_details_email (session : CheckoutSession) : option string :=
  match cs_customer_details session with
  | Some cd => cd_email cd
  | None => None
  end.

End Stripe.

(** ** src/app/api/webhooks/stripe/route.ts *)

Module Webhook.

Import Stripe.

(** Helper function to record events.  The failure of the statement
    is caught and logged, and not thrown again. *)
Definition recordPurchaseEvent (data : PurchaseEventData) : M unit :=
  try_catch (sql (upsert_purchase_event data)) (fun dbError => ret tt).

(** Helper function to update user points, with the same [catch]. *)
Definition updateUserPoints (email : string) (pointsToAdd : Z) (stripeSessionId : string)
  : M unit :=
  try_catch (sql (upsert_user_points email pointsToAdd)) (fun dbError => ret tt).

(** The email recorded for a failed payment intent: the receipt email,
    or else the email of an expanded customer. *)
Definition emailForFailedPI (paymentIntentFailed : PaymentIntent) : string :=
  if Js.truthy (pi_receipt_email paymentIntentFailed)
  then Js.or_else (pi_receipt_email paymentIntentFailed) "unknown@example.com"
  else
    match pi_customer paymentIntentFailed with
    | customer_id _ => "unknown@example.com"
    | customer_object email => Js.or_else email "unknown@example.com"
    | customer_null | customer_deleted => "unknown@example.com"
    end.

Definition latest_charge_id (c : LatestCharge) : option json :=
  match c with
  | charge_null => None
  | charge_id id => Some (JStr id)
  | charge_object id => Some (JStr id)
  end.

(** [paymentIntentFailed.last_payment_error?.message] *)
Definition failure_reason (paymentIntentFailed : PaymentIntent) : option string :=
  match pi_last_payment_error paymentIntentFailed with
  | Some err => message err
  | None => None
  end.

(** The [switch (event.type)] of [POST]: [Some response] is a [return]
    from inside a case, [None] a [break] (or the default case). *)
Definition handle (event : Event) : M (option Response) :=
  match event with
  | checkout_session_completed session =>
      let email := Js.or (metadata session "email") (customer_details_email session) in
      let productId := metadata session "productId" in
      let sellerId := Js.parseInt (Js.or_else (metadata session "sellerId") "0") in
      match Js.present email, Js.present productId with
      | Some email, Some productId =>
          match getProductById productId with
          | None =>
              await recordPurchaseEvent
                {| email := email;
                   stripeSessionId := cs_id session;
                   status := "ERROR_PRODUCT_NOT_FOUND";
                   productId := Some productId;
                   seller_id := Some sellerId;
                   pointsAwarded := None;
                   details := Some (Js.obj
                     [("error", Some (JStr ("Product ID " ++ productId ++ " not found.")))]) |} ;;
              ret (Some (NextResponse.json (Js.obj
                [("received", Some (JBool true));
                 ("error", Some (JStr ("Product ID " ++ productId ++ " not found.")))])))
          | Some product =>
              let pointsToAward := p_points product in
              await recordPurchaseEvent
                {| email := email;
                   productId := Some productId;
                   seller_id := Some sellerId;
                   stripeSessionId := cs_id session;
                   status := "PAYMENT_SUCCESS";
                   pointsAwarded := Some pointsToAward;
                   details := Some (Js.obj
                     [("product_name", Some (JStr (p_name product)));
                      ("price_paid", Some (JNum (p_price product)));
                      ("payment_intent", Some (cs_payment_intent session))]) |} ;;
              await (if 0 <? pointsToAward
                     then updateUserPoints email pointsToAward (cs_id session)
                     else ret tt) ;;
              ret None
          end
      | _, _ =>
          await recordPurchaseEvent
            {| email := Js.or_else email "unknown@example.com";
               stripeSessionId := cs_id session;
               status := "ERROR_MISSING_METADATA";
               productId := productId;
               seller_id := Some sellerId;
               pointsAwarded := None;
               details := Some (Js.obj
                 [("error", Some (JStr "Email or productId not found in session metadata"))]) |} ;;
          ret (Some (NextResponse.json (Js.obj
            [("received", Some (JBool true));
             ("error", Some (JStr "Email or productId missing in session data"))])))
      end
  | payment_intent_payment_failed paymentIntentFailed =>
      await recordPurchaseEvent
        {| email := emailForFailedPI paymentIntentFailed;
           productId := None;
           seller_id := None;
           stripeSessionId := pi_id paymentIntentFailed;
           status := "PAYMENT_FAILED";
           pointsAwarded := None;
           details := Some (Js.obj
             [("reason", JStr <$> failure_reason paymentIntentFailed);
              ("payment_intent_id", Some (JStr (pi_id paymentIntentFailed)));
              ("latest_charge_id", latest_charge_id (pi_latest_charge paymentIntentFailed));
              ("status", Some (JStr (pi_status paymentIntentFailed)));
              ("amount", Some (JNum (pi_amount paymentIntentFailed)));
              ("currency", Some (JStr (pi_currency paymentIntentFailed)))]) |} ;;
      ret None
  | unhandled _ => ret None
  end.

(** [POST] from "Handle the event" on, for an event that passed the
    signature check: the [try] around the [switch], its [catch], and
    the final [return NextResponse.json({ received: true })]. *)
Definition process (event : Event) : M Response :=
  bind
    (try_catch (handle event)
       (fun processingError =>
          ret (Some (NextResponse.json_status
                       (Js.obj [("error", Some (JStr "Webhook processing error"));
                                ("details", Some (JStr (Pg.message processingError)))])
                       500))))
    (fun returned =>
       ret (match returned with
            | Some response => response
            | None => NextResponse.json (Js.obj [("received", Some (JBool true))])
            end)).

Record Request : Type := mkRequest {
  req_text : string;                         (* the raw body *)
  req_stripe_signature : option string       (* the stripe-signature header *)
}.

Section POST.

(** [stripe.webhooks.constructEvent(buf, sig, webhookSecret)] of the
    provider's library: the parsed event, or the message of the
    error it throws. *)
Variable constructEvent : string -> string -> string -> Event + string.

(** [process.env.STRIPE_WEBHOOK_SECRET] *)
Variable webhookSecret : option string.

Definition POST (req : Request) : M Response :=
  let buf := req_text req in
  match Js.present (req_stripe_signature req) with
  | None =>
      ret (NextResponse.json_status
             (Js.obj [("error", Some (JStr "Missing stripe-signature header."))]) 400)
  | Some sig =>
      match Js.present webhookSecret with
      | None =>
          ret (NextResponse.json_status
                 (Js.obj [("error", Some (JStr "Webhook secret not configured."))]) 500)
      | Some secret =>
          match constructEvent buf sig secret with
          | inr err_message =>
              ret (NextResponse.json_status
                     (Js.obj [("error", Some (JStr ("Webhook Error: " ++ err_message)))]) 400)
          | inl event => process event
          end
      end
  end.

End POST.

End Webhook.

(** ** src/app/api/checkout_sessions/route.ts *)

Module CheckoutSessions.

(** The request body as [req.json()] parses it.  [POST] destructures
    [email] and [productId] out of it; the checkout page also sends
    [sellerId].  The properties are strings, as the route documents
    them. *)
Record RequestBody : Type := mkBody {
  body_email : option string;
  body_productId : option string;
  body_sellerId : option string
}.

(** The argument of [stripe.checkout.sessions.create]. *)
Record SessionCreateParams : Type := mkParams {
  payment_method_types : list string;
  currency : string;
  product_data_name : string;
  product_data_description : string;
  unit_amount : Z;
  quantity : Z;
  mode : string;
  success_url : string;
  cancel_url : string;
  customer_email : string;
  metadata : gmap string string
}.

Section POST.

(** [process.env.NEXT_PUBLIC_APP_URL] *)
Variable NEXT_PUBLIC_APP_URL : option string.
Variable encodeURIComponent : string -> string.

(** [stripe.checkout.sessions.create]: the id of the session the
    provider creates, or the message of the error thrown. *)
Variable create : SessionCreateParams -> string + string.

Definition sessionCreateParams (email productId : string) (product : Product)
  : SessionCreateParams :=
  let appUrl := Js.or_else NEXT_PUBLIC_APP_URL "http://localhost:3000" in
  {| payment_method_types := ["card"];
     currency := "eur";
     product_data_name := p_name product;
     product_data_description :=
       "Purchase of " ++ p_name product ++ " for " ++ Js.toString (p_points product) ++ " points";
     unit_amount := p_price product * 100;
     quantity := 1;
     mode := "payment";
     success_url :=
       appUrl ++ "/checkout?payment_success=true&session_id={CHECKOUT_SESSION_ID}&email="
              ++ encodeURIComponent email ++ "&productId=" ++ productId;
     cancel_url :=
       appUrl ++ "/checkout?payment_cancelled=true&email=" ++ encodeURIComponent email
              ++ "&productId=" ++ productId ++ "&session_id={CHECKOUT_SESSION_ID}";
     customer_email := email;
     metadata :=
       {[ "email" := email;
          "productId" := productId;
          "points" := Js.toString (p_points product) ]} |}.

(** The request sent to the provider, when one is sent. *)
Definition outbound (body : RequestBody) : option SessionCreateParams :=
  match Js.present (body_email body), Js.present (body_productId body) with
  | Some email, Some productId =>
      match getProductById productId with
      | Some product => Some (sessionCreateParams email productId product)
      | None => None
      end
  | _, _ => None
  end.

(** The answer of the [catch]: [error.message || 'Internal Server Error']. *)
Definition internal_error (error_message : string) : Response :=
  NextResponse.json_status
    (Js.obj [("error",
              Some (JStr (Js.or_else (Some error_message) "Internal Server Error")))])
    500.

(** [req_json] is what [await req.json()] gives: the parsed body, or
    the message of the error it throws. *)
Definition POST (req_json : RequestBody + string) : Response :=
  match req_json with
  | inr error_message => internal_error error_message
  | inl body =>
      match Js.present (body_email body), Js.present (body_productId body) with
      | Some email, Some productId =>
          match getProductById productId with
          | None =>
              NextResponse.json_status
                (Js.obj [("error", Some (JStr "Invalid Product ID"))]) 404
          | Some product =>
              match create (sessionCreateParams email productId product) with
              | inl session_id =>
                  if Js.truthy (Some session_id)
                  then NextResponse.json (Js.obj [("sessionId", Some (JStr session_id))])
                  else internal_error "Failed to create Stripe session."
              | inr error_message => internal_error error_message
              end
          end
      | _, _ =>
          NextResponse.json_status
            (Js.obj [("error", Some (JStr "Email and Product ID are required"))]) 400
      end
  end.

End POST.

End CheckoutSessions.

(** ** src/app/api/log-cancellation/route.ts *)

Module LogCancellation.

(** The request body as [req.json()] parses it. *)
Record RequestBody : Type := mkBody {
  body_email : option string;
  body_productId : option string;
  body_stripeSessionId : option string
}.

(** [req_json] is what [await req.json()] gives: the parsed body, or
    the message of the error it throws. *)
Record Request : Type := mkRequest {
  req_admin_api_secret : option string;     (* the X-Admin-API-Secret header *)
  req_json : RequestBody + string
}.

Definition internal_error (error_message : string) : Response :=
  NextResponse.json_status
    (Js.obj [("error", Some (JStr "Internal Server Error"));
             ("details", Some (JStr error_message))])
    500.

Section POST.

(** [process.env.NEXT_PUBLIC_ADMIN_API_SECRET] *)
Variable expectedSecret : option string.

(** [new Date().toISOString()] at a tick of the clock. *)
Variable toISOString : nat -> string.

Definition POST (req : Request) : M Response :=
  if negb (Js.truthy expectedSecret)
     || negb (bool_decide (req_admin_api_secret req = expectedSecret))
  then ret (NextResponse.json_status
              (Js.obj [("error", Some (JStr "Unauthorized. Invalid or missing API secret."))])
              401)
  else
    match req_json req with
    | inr error_message => ret (internal_error error_message)
    | inl body =>
    try_catch
      match Js.present (body_email body),
            Js.present (body_productId body),
            Js.present (body_stripeSessionId body) with
      | Some email, Some productId, Some stripeSessionId =>
          match getProductById productId with
          | None =>
              ret (NextResponse.json_status
                     (Js.obj [("error", Some (JStr "Invalid Product ID"))]) 400)
          | Some product =>
              fun w =>
                (await sql (insert_cancellation
                   {| c_email := email;
                      c_product_id := productId;
                      c_points_awarded := 0;
                      c_stripe_session_id := stripeSessionId;
                      c_status := "cancelled_by_user";
                      c_details := Js.obj
                        [("product_name", Some (JStr (p_name product)));
                         ("price_paid", Some (JNum (p_price product)));
                         ("cancelled_at", Some (JStr (toISOString (clock w))));
                         ("reason", Some (JStr "User clicked cancel on Stripe page"))] |}) ;;
                 ret (NextResponse.json (Js.obj
                   [("message", Some (JStr "Cancellation event logged successfully"))]))) w
          end
      | _, _, _ =>
          ret (NextResponse.json_status
                 (Js.obj [("error",
                           Some (JStr "Missing required fields: email, productId, stripeSessionId"))])
                 400)
      end
      (fun error => ret (internal_error (Pg.message error)))
    end.

End POST.

End LogCancellation.

(** ** Reading the ledger *)

(** The rows of the Event Store for an idempotency key. *)
Definition rows_for (sid : string) (d : Db) : list PurchaseEvent :=
  List.filter (fun row => String.eqb (pe_stripe_session_id row) sid) (purchase_events d).

(** [SELECT total_points FROM user_points WHERE email = $1], with 0 for
    a customer without a row (as the admin route answers). *)
Definition totalPoints (customer : string) (d : Db) : Z :=
  match user_points d !! customer with
  | Some row => total_points row
  | None => 0
  end.

(** The sum of [points_awarded] over the customer's rows of status
    PAYMENT_SUCCESS (a NULL adds nothing, as in SQL's SUM). *)
Definition successPoints (customer : string) (d : Db) : Z :=
  fold_right Z.add 0
    (List.map (fun row => default 0 (pe_points_awarded row))
       (List.filter (fun row => String.eqb (pe_email row) customer
                                && String.eqb (pe_status row) "PAYMENT_SUCCESS")
          (purchase_events d))).

(** The status a handler answers with, when it does not throw. *)
Definition answered (run : completion Response * World) : option nat :=
  match fst run with
  | Ok response => Some (resp_status response)
  | Throw _ => None
  end.

(** Handling the notifications of a list one after the other. *)
Fixpoint deliver (events : list Stripe.Event) (w : World) : World :=
  match events with
  | [] => w
  | event :: rest => deliver rest (snd (Webhook.process event w))
  end.

(** ** src/app/api/admin/user/points, user/events and events/all: the read routes *)

Module Admin.

(** [sql(query, params)] for a [SELECT] with text parameters: a
    connection is taken as for any statement; a parameter that
    contains U+0000 is refused when the statement is bound; the tables
    are read, not written. *)
Definition sql_select {A : Type} (params : list string) (rows : Db -> A) : M A :=
  fun w =>
    match outages w with
    | true :: rest => (Throw Pg.connection_failure, mkWorld (db w) (S (clock w)) rest)
    | _ =>
        (if forallb Pg.text params
         then Ok (rows (db w))
         else Throw Pg.character_not_in_repertoire,
         mkWorld (db w) (S (clock w)) (tail (outages w)))
    end.

(** [SELECT total_points FROM user_points WHERE email = $1;] *)
Definition select_total_points (email : string) (d : Db) : list Z :=
  match user_points d !! email with
  | Some row => [total_points row]
  | None => []
  end.

(** [ORDER BY timestamp DESC], by insertion.  SQL leaves the order of
    rows with equal timestamps open; here they stay in table order. *)
Fixpoint insert_by_timestamp (row : PurchaseEvent) (sorted : list PurchaseEvent)
  : list PurchaseEvent :=
  match sorted with
  | [] => [row]
  | first :: rest =>
      if (pe_timestamp first <? pe_timestamp row)%nat
      then row :: first :: rest
      else first :: insert_by_timestamp row rest
  end.

Definition order_by_timestamp_desc (rows : list PurchaseEvent) : list PurchaseEvent :=
  fold_left (fun sorted row => insert_by_timestamp row sorted) rows [].

(** [SELECT * FROM purchase_events WHERE email = $1 ORDER BY timestamp DESC;] *)
Definition select_events_of (email : string) (d : Db) : list PurchaseEvent :=
  order_by_timestamp_desc
    (List.filter (fun row => String.eqb (pe_email row) email) (purchase_events d)).

(** [SELECT * FROM purchase_events ORDER BY timestamp DESC;] *)
Definition select_all_events (d : Db) : list PurchaseEvent :=
  order_by_timestamp_desc (purchase_events d).

(** The request: the X-Admin-Secret header and the query parameters
    [secret] and [email]. *)
Record Request : Type := mkRequest {
  header_secret : option string;
  query_secret : option string;
  query_email : option string
}.

(** The body of an answer: a JSON object, or the rows of a result
    ([NextResponse.json(result.rows)]). *)
Inductive Body : Type :=
| object (body : json)
| rows (result : list PurchaseEvent).

Record Reply : Type := mkReply {
  reply_body : Body;
  reply_status : nat
}.

Section Routes.

(** [process.env.NODE_ENV] and [process.env.ADMIN_API_SECRET] *)
Variable NODE_ENV : option string.
Variable ADMIN_API_SECRET : option string.

(** [error.stack] *)
Variable stack : Pg.error -> string.

Definition ADMIN_SECRET : string := Js.or_else ADMIN_API_SECRET "your-admin-api-secret".

(** [req.headers.get('X-Admin-Secret') || req.nextUrl.searchParams.get('secret')] *)
Definition secret (req : Request) : option string :=
  Js.or (header_secret req) (query_secret req).

(** The two guards that open each route: the 401 they answer, if any. *)
Definition unauthorized (req : Request) : option Response :=
  if bool_decide (NODE_ENV = Some "production")
     && negb (bool_decide (secret req = Some ADMIN_SECRET))
  then Some (NextResponse.json_status
               (Js.obj [("error", Some (JStr "Unauthorized: Missing or invalid secret."))])
               401)
  else if negb (bool_decide (NODE_ENV = Some "development"))
          && negb (bool_decide (secret req = Some ADMIN_SECRET))
  then Some (NextResponse.json_status
               (Js.obj [("error",
                         Some (JStr "Unauthorized: Missing or invalid secret for non-dev environment."))])
               401)
  else None.

(** The body of a 500: [{ message, error: error.message, stack }], the
    stack only in development. *)
Definition failure (message : string) (error : Pg.error) : Response :=
  NextResponse.json_status
    (Js.obj [("message", Some (JStr message));
             ("error", Some (JStr (Pg.message error)));
             ("stack", if bool_decide (NODE_ENV = Some "development")
                       then Some (JStr (stack error)) else None)])
    500.

(** [GET /api/admin/user/points] *)
Definition user_points_GET (req : Request) : M Response :=
  match unauthorized req with
  | Some response => ret response
  | None =>
      match Js.present (query_email req) with
      | None =>
          ret (NextResponse.json_status
                 (Js.obj [("error", Some (JStr "Email query parameter is required."))]) 400)
      | Some email =>
          try_catch
            (bind (sql_select [email] (select_total_points email))
               (fun result =>
                  ret (match result with
                       | [] =>
                           NextResponse.json (Js.obj
                             [("email", Some (JStr email));
                              ("total_points", Some (JNum 0));
                              ("message",
                               Some (JStr "User not found or has no points record."))])
                       | total :: _ =>
                           NextResponse.json (Js.obj [("total_points", Some (JNum total))])
                       end)))
            (fun error =>
               ret (failure ("Failed to fetch points for user " ++ email ++ ".") error))
      end
  end.

Definition reply (response : Response) : Reply :=
  mkReply (object (resp_body response)) (resp_status response).

(** [GET /api/admin/user/events] *)
Definition user_events_GET (req : Request) : M Reply :=
  match unauthorized req with
  | Some response => ret (reply response)
  | None =>
      match Js.present (query_email req) with
      | None =>
          ret (reply (NextResponse.json_status
                        (Js.obj [("error", Some (JStr "Email query parameter is required."))])
                        400))
      | Some email =>
          try_catch
            (bind (sql_select [email] (select_events_of email))
               (fun result => ret (mkReply (rows result) 200)))
            (fun error =>
               ret (reply (failure ("Failed to fetch purchase events for user " ++ email ++ ".")
                             error)))
      end
  end.

(** [GET /api/admin/events/all] *)
Definition all_events_GET (req : Request) : M Reply :=
  match unauthorized req with
  | Some response => ret (reply response)
  | None =>
      try_catch
        (bind (sql_select [] select_all_events)
           (fun result => ret (mkReply (rows result) 200)))
        (fun error => ret (reply (failure "Failed to fetch purchase events." error)))
  end.

End Routes.

End Admin.

(** ** src/lib/session.ts, src/app/api/auth/login and logout *)

Module Auth.

(** [SessionData]: [{ isAdmin?: boolean }] *)
Record SessionData : Type := mkSessionData {
  isAdmin : option bool
}.

(** [!!session.isAdmin] *)
Definition is_admin (session : SessionData) : bool :=
  match isAdmin session with
  | Some true => true
  | _ => false
  end.

(** The body of the login request as [req.json()] parses it; a
    property that is absent, or is not a string, is [None] (it then
    equals no configured credential). *)
Record Credentials : Type := mkCredentials {
  username : option string;
  password : option string
}.

Section Routes.

(** The cookie store of the request, and the session library on it:
    [getIronSession] gives the session sealed in the cookies or throws
    (the message is kept); [session.save()] seals the session into the
    cookies or throws; [session.destroy()] clears it. *)
Variable Cookies : Type.
Variable getIronSession : Cookies -> SessionData + string.
Variable save : SessionData -> Cookies -> Cookies + string.
Variable destroy : Cookies -> Cookies.

(** [process.env.ADMIN_AUTH_ENABLED], [ADMIN_USERNAME], [ADMIN_PASSWORD] *)
Variable ADMIN_AUTH_ENABLED : option string.
Variable ADMIN_USERNAME : option string.
Variable ADMIN_PASSWORD : option string.

Definition message_response (message : string) (status : nat) : Response :=
  NextResponse.json_status (Js.obj [("message", Some (JStr message))]) status.

(** [POST /api/auth/login] *)
Definition login_POST (req_json : Credentials + string) (cookies : Cookies)
  : Response * Cookies :=
  if negb (bool_decide (ADMIN_AUTH_ENABLED = Some "true"))
  then (message_response "Admin authentication is disabled." 403, cookies)
  else
    match req_json with
    | inr error_message => (message_response error_message 500, cookies)
    | inl body =>
        match Js.present ADMIN_USERNAME, Js.present ADMIN_PASSWORD with
        | Some adminUsername, Some adminPassword =>
            if bool_decide (username body = Some adminUsername)
               && bool_decide (password body = Some adminPassword)
            then
              match getIronSession cookies with
              | inr error_message => (message_response error_message 500, cookies)
              | inl session =>
                  match save {| isAdmin := Some true |} cookies with
                  | inr error_message => (message_response error_message 500, cookies)
                  | inl saved => (message_response "Login successful" 200, saved)
                  end
              end
            else (message_response "Invalid username or password" 401, cookies)
        | _, _ =>
            (message_response "Server configuration error. Admin credentials not set." 500,
             cookies)
        end
    end.

(** [POST /api/auth/logout] *)
Definition logout_POST (cookies : Cookies) : Response * Cookies :=
  if negb (bool_decide (ADMIN_AUTH_ENABLED = Some "true"))
  then (message_response "Admin authentication is disabled." 403, cookies)
  else
    match getIronSession cookies with
    | inr error_message => (message_response error_message 500, cookies)
    | inl session => (message_response "Logout successful" 200, destroy cookies)
    end.

End Routes.

End Auth.

(** ** src/middleware.ts *)

Module Middleware.

(** [s.split(',')] *)
Fixpoint split (separator : ascii) (s : string) : list string :=
  match s with
  | EmptyString => [EmptyString]
  | String c rest =>
      if Ascii.eqb c separator
      then EmptyString :: split separator rest
      else
        match split separator rest with
        | first :: others => String c first :: others
        | [] => [String c EmptyString]
        end
  end.

(** [[...new Set(l)]]: the first occurrence of each element, in order. *)
Fixpoint unique (l : list string) : list string :=
  match l with
  | [] => []
  | x :: rest => x :: List.filter (fun y => negb (String.eqb x y)) (unique rest)
  end.

Record Request : Type := mkRequest {
  pathname : string;
  method : string;
  origin : option string        (* the Origin header *)
}.

(** [new URL('/login', request.url)], with its [redirect_to] parameter. *)
Record LoginUrl : Type := mkLoginUrl {
  redirect_to : option string
}.

Section Middleware.

(** The cookies of the request, the cookies a response sets, and the
    session library: [getIronSession(request, response, sessionOptions)]
    gives the session and the cookies it sets on the response, or
    throws. *)
Variable RequestCookies : Type.
Variable SetCookie : Type.
Variable getIronSession : RequestCookies -> Auth.SessionData * list SetCookie + string.

(** [process.env.ALLOWED_ORIGINS], [ADMIN_AUTH_ENABLED], [NODE_ENV] *)
Variable ALLOWED_ORIGINS : option string.
Variable ADMIN_AUTH_ENABLED : option string.
Variable NODE_ENV : option string.

(** What the middleware returns: [NextResponse.next()] with response
    headers, a redirect to the login page, or an empty 204; each with
    the cookies it sets. *)
Inductive Outcome : Type :=
| next (headers : gmap string string) (cookies : list SetCookie)
| redirect (loginUrl : LoginUrl) (cookies : list SetCookie)
| no_content (headers : gmap string string) (cookies : list SetCookie).

Definition envAllowedOrigins : option (list string) :=
  option_map (split ","%char) ALLOWED_ORIGINS.

Definition defaultAllowedOrigins : list string := ["http://localhost:3000"].

Definition allowedOrigins : list string :=
  match envAllowedOrigins with
  | Some env =>
      if (0 <? length env)%nat
      then unique (defaultAllowedOrigins ++ env)
      else defaultAllowedOrigins
  | None => defaultAllowedOrigins
  end.

(** [allowedOrigins.includes(origin)] *)
Definition includes (l : list string) (x : string) : bool :=
  existsb (String.eqb x) l.

Definition loginUrl (pathname : string) : LoginUrl :=
  {| redirect_to := if negb (String.eqb pathname "/login") then Some pathname else None |}.

(** The headers set on every response that gets the CORS headers. *)
Definition with_cors_headers (headers : gmap string string) : gmap string string :=
  <[ "Access-Control-Max-Age" := "86400" ]>
    (<[ "Access-Control-Allow-Headers" :=
          "X-CSRF-Token, X-Requested-With, Accept, Accept-Version, Content-Length, Content-MD5, Content-Type, Date, X-Api-Version, X-Admin-Secret, Authorization" ]>
       (<[ "Access-Control-Allow-Methods" := "GET, POST, PUT, DELETE, OPTIONS, PATCH" ]>
          (<[ "Access-Control-Allow-Credentials" := "true" ]> headers))).

(** The admin authentication logic: the cookies set on
    [initialResponse], or the redirect returned early. *)
Definition admin_authentication (cookies : RequestCookies) (pathname : string)
  : list SetCookie + Outcome :=
  if String.prefix "/admin" pathname
  then
    if bool_decide (ADMIN_AUTH_ENABLED = Some "true")
    then
      match getIronSession cookies with
      | inl (session, set_cookies) =>
          if negb (Auth.is_admin session)
          then inr (redirect (loginUrl pathname) set_cookies)
          else inl set_cookies
      | inr error_message => inr (redirect (loginUrl pathname) [])
      end
    else inl []
  else inl [].

(** The value given to Access-Control-Allow-Origin, when it is set:
    the origin of the request if it is an allowed one; the wildcard for
    a request without origin outside production. *)
Definition allow_origin (request : Request) : option string :=
  match Js.present (origin request) with
  | Some o => if includes allowedOrigins o then Some o else None
  | None => if negb (bool_decide (NODE_ENV = Some "production")) then Some "*" else None
  end.

Definition middleware (cookies : RequestCookies) (request : Request) : Outcome :=
  match admin_authentication cookies (pathname request) with
  | inr early => early
  | inl initial_cookies =>
      let response_headers : gmap string string :=
        with_cors_headers
          match allow_origin request with
          | Some o => <[ "Access-Control-Allow-Origin" := o ]> ∅
          | None => ∅
          end in
      if String.eqb (method request) "OPTIONS"
      then
        match allow_origin request with
        | Some o =>
            no_content (with_cors_headers (<[ "Access-Control-Allow-Origin" := o ]> ∅))
              initial_cookies
        | None => no_content ∅ []
        end
      else next response_headers initial_cookies
  end.

End Middleware.

End Middleware.

(** * Properties *)

(** ** The column types *)

Section Columns.

Lemma clip_fits n : forall s,
  (Pg.char_length s <= n)%nat -> Pg.clip n s = (s, EmptyString).
Proof.
  intros s. revert n. induction s as [|c rest IH]; intros n Hlen; [reflexivity|].
  cbn [Pg.clip Pg.char_length] in *. destruct (Pg.continuation c).
  - rewrite (IH n) by exact Hlen. reflexivity.
  - destruct n as [|n]; [simpl in Hlen; lia|].
    rewrite (IH n) by (simpl in Hlen; lia). reflexivity.
Qed.

Lemma fits_text n s : Pg.fits n s = true -> Pg.text s = true.
Proof. unfold Pg.fits. intros H. apply andb_prop in H as [H _]. exact H. Qed.

(** A text that fits its column is stored as it is. *)
Lemma varchar_fits n s : Pg.fits n s = true -> Pg.varchar n s = inr s.
Proof.
  unfold Pg.fits, Pg.varchar. intros H. apply andb_prop in H as [_ H].
  apply Nat.leb_le in H. rewrite (clip_fits n s H). reflexivity.
Qed.

Lemma bind_text_fits n s : Pg.fits n s = true -> Pg.bind_text s = inr s.
Proof. intros H. unfold Pg.bind_text. rewrite (fits_text n s H). reflexivity. Qed.

Lemma bind_text_inr s s' : Pg.bind_text s = inr s' -> s' = s /\ Pg.text s = true.
Proof. unfold Pg.bind_text. destruct (Pg.text s); [|discriminate]. intros [= <-]. auto. Qed.

Lemma bind_text_opt_inr s s' :
  Pg.bind_text_opt s = inr s' -> s' = s.
Proof.
  unfold Pg.bind_text_opt. destruct s as [s|]; [destruct (Pg.text s)|]; congruence.
Qed.

Lemma bind_jsonb_inr j j' : Pg.bind_jsonb j = inr j' -> j' = j.
Proof.
  unfold Pg.bind_jsonb. destruct j as [j|]; [destruct (Pg.jsonb j)|]; congruence.
Qed.

(** What is stored of a text that is not empty is not empty. *)
Lemma varchar_not_empty n s stored :
  Pg.varchar (S n) s = inr stored -> s <> EmptyString -> stored <> EmptyString.
Proof.
  unfold Pg.varchar. destruct (Pg.blank _); [|discriminate]. intros [= <-] Hs.
  destruct s as [|c rest]; [contradiction|]. cbn [Pg.clip].
  destruct (Pg.continuation c); discriminate.
Qed.


Lemma integer_points (o p : option Z) :
  Pg.integer (option_map Js.Num o) = inr p -> p = o.
Proof.
  destruct o as [z|]; simpl; [destruct (Pg.int4 z); [|destruct (Z.abs z <? _)]|]; congruence.
Qed.

Lemma integer_seller (n : option Js.number) (z : Z) :
  Pg.integer n = inr (Some z) -> n = Some (Js.Num z).
Proof.
  destruct n as [[|z']|]; simpl;
    [|destruct (Pg.int4 z'); [|destruct (Z.abs z' <? _)]|]; congruence.
Qed.

Lemma integer_int4 z : Pg.int4 z = true -> Pg.integer (Some (Js.Num z)) = inr (Some z).
Proof. intros H. simpl. rewrite H. reflexivity. Qed.

(** The parameters of [recordPurchaseEvent] that the server takes:
    the texts are stored as the columns cut them, the integers as they
    parse, the details as they are. *)
Lemma parameters_inr data stored seller points :
  Exec.parameters data = inr (stored, seller, points) ->
  Pg.varchar 255 (email data) = inr (email stored)
  /\ Pg.varchar_opt 100 (productId data) = inr (productId stored)
  /\ Pg.varchar 255 (stripeSessionId data) = inr (stripeSessionId stored)
  /\ Pg.varchar 50 (status data) = inr (status stored)
  /\ details stored = details data
  /\ Pg.integer (seller_id data) = inr seller
  /\ points = pointsAwarded data.
Proof.
  unfold Exec.parameters, mbind, error_bind.
  destruct (Pg.bind_text (email data)) as [e|email'] eqn:H1; [discriminate|].
  destruct (Pg.bind_text_opt (productId data)) as [e|productId'] eqn:H2; [discriminate|].
  destruct (Pg.integer (seller_id data)) as [e|seller'] eqn:H3; [discriminate|].
  destruct (Pg.bind_text (stripeSessionId data)) as [e|sid'] eqn:H4; [discriminate|].
  destruct (Pg.bind_text (status data)) as [e|status'] eqn:H5; [discriminate|].
  destruct (Pg.integer (option_map Js.Num (pointsAwarded data))) as [e|points'] eqn:H6;
    [discriminate|].
  destruct (Pg.bind_jsonb (details data)) as [e|details'] eqn:H7; [discriminate|].
  apply bind_text_inr in H1 as [-> _]. apply bind_text_opt_inr in H2 as ->.
  apply bind_text_inr in H4 as [-> _]. apply bind_text_inr in H5 as [-> _].
  apply integer_points in H6 as ->. apply bind_jsonb_inr in H7 as ->.
  destruct (Pg.varchar 255 (email data)) as [e|email'] eqn:H8; [discriminate|].
  destruct (Pg.varchar_opt 100 (productId data)) as [e|productId'] eqn:H9; [discriminate|].
  destruct (Pg.varchar 255 (stripeSessionId data)) as [e|sid'] eqn:H10; [discriminate|].
  destruct (Pg.varchar 50 (status data)) as [e|status'] eqn:H11; [discriminate|].
  intros [= <- <- <-]. repeat split.
Qed.

Lemma cancellation_parameters_inr data stored :
  Exec.cancellation_parameters data = inr stored ->
  Pg.varchar 255 (c_email data) = inr (c_email stored)
  /\ Pg.varchar 100 (c_product_id data) = inr (c_product_id stored)
  /\ Pg.varchar 255 (c_stripe_session_id data) = inr (c_stripe_session_id stored)
  /\ Pg.varchar 50 (c_status data) = inr (c_status stored)
  /\ c_points_awarded stored = c_points_awarded data
  /\ c_details stored = c_details data.
Proof.
  unfold Exec.cancellation_parameters, mbind, error_bind.
  destruct (Pg.bind_text (c_email data)) as [e|email'] eqn:H1; [discriminate|].
  destruct (Pg.bind_text (c_product_id data)) as [e|productId'] eqn:H2; [discriminate|].
  destruct (Pg.integer (Some (Js.Num (c_points_awarded data)))) as [e|points'] eqn:H3;
    [discriminate|].
  destruct (Pg.bind_text (c_stripe_session_id data)) as [e|sid'] eqn:H4; [discriminate|].
  destruct (Pg.bind_text (c_status data)) as [e|status'] eqn:H5; [discriminate|].
  destruct (Pg.bind_jsonb (Some (c_details data))) as [e|details'] eqn:H6; [discriminate|].
  apply bind_text_inr in H1 as [-> _]. apply bind_text_inr in H2 as [-> _].
  apply bind_text_inr in H4 as [-> _]. apply bind_text_inr in H5 as [-> _].
  destruct (Pg.varchar 255 (c_email data)) as [e|email'] eqn:H8; [discriminate|].
  destruct (Pg.varchar 100 (c_product_id data)) as [e|productId'] eqn:H9; [discriminate|].
  destruct (Pg.varchar 255 (c_stripe_session_id data)) as [e|sid'] eqn:H10; [discriminate|].
  destruct (Pg.varchar 50 (c_status data)) as [e|status'] eqn:H11; [discriminate|].
  intros [= <-]. repeat split.
Qed.

(** The statuses the handlers write are stored as they are. *)
Lemma varchar_status (literal stored : string) :
  Pg.fits 50 literal = true -> Pg.varchar 50 literal = inr stored -> stored = literal.
Proof. intros Hfits Hstored. rewrite (varchar_fits _ _ Hfits) in Hstored. congruence. Qed.

End Columns.

(** ** The statements and the two helpers *)

Section Helpers.

Import Webhook.

(** The world after a statement went through [sql]. *)
Definition after (stmt : Statement) (w : World) : World := snd (sql stmt w).

Lemma after_outage stmt w rest :
  outages w = true :: rest ->
  sql stmt w = (Throw Pg.connection_failure, mkWorld (db w) (S (clock w)) rest).
Proof. intros H. unfold sql. rewrite H. reflexivity. Qed.

Lemma after_reachable stmt w :
  head (outages w) <> Some true ->
  sql stmt w =
    (match snd (Exec.statement (clock w) stmt (db w)) with
     | Some e => Throw e
     | None => Ok tt
     end,
     mkWorld (fst (Exec.statement (clock w) stmt (db w))) (S (clock w)) (tail (outages w))).
Proof.
  intros H. unfold sql.
  destruct (outages w) as [|[] rest]; simpl in *; try congruence;
    destruct (Exec.statement (clock w) stmt (db w)); reflexivity.
Qed.

(** Neither helper ever throws: what [sql] throws is caught. *)
Lemma recordPurchaseEvent_run data w :
  recordPurchaseEvent data w = (Ok tt, after (upsert_purchase_event data) w).
Proof.
  unfold recordPurchaseEvent, try_catch, after.
  destruct (sql (upsert_purchase_event data) w) as [[[]|e] w']; reflexivity.
Qed.

Lemma updateUserPoints_run email pointsToAdd sid w :
  updateUserPoints email pointsToAdd sid w = (Ok tt, after (upsert_user_points email pointsToAdd) w).
Proof.
  unfold updateUserPoints, try_catch, after.
  destruct (sql (upsert_user_points email pointsToAdd) w) as [[[]|e] w']; reflexivity.
Qed.

(** The ledger statement leaves the balances alone, and the balance
    statement leaves the ledger alone. *)
Lemma purchase_event_upsert_user_points now data d :
  user_points (fst (Exec.purchase_event_upsert now data d)) = user_points d.
Proof.
  unfold Exec.purchase_event_upsert.
  destruct (Exec.parameters data) as [e|[[stored [seller|]] points]]; reflexivity.
Qed.

Lemma user_points_upsert_purchase_events now email pointsToAdd d :
  purchase_events (fst (Exec.user_points_upsert now email pointsToAdd d)) = purchase_events d.
Proof.
  unfold Exec.user_points_upsert.
  match goal with
  | |- context [match ?bound with inl _ => _ | inr _ => _ end] =>
      destruct bound as [e|stored]
  end; [reflexivity|].
  destruct (user_points d !! stored) as [row|]; [|reflexivity].
  destruct (Pg.int4 _); reflexivity.
Qed.

Lemma after_ledger_user_points data w :
  user_points (db (after (upsert_purchase_event data) w)) = user_points (db w).
Proof.
  unfold after, sql. destruct (outages w) as [|[] rest]; try reflexivity;
    pose proof (purchase_event_upsert_user_points (clock w) data (db w)) as H;
    simpl; destruct (Exec.purchase_event_upsert (clock w) data (db w)); exact H.
Qed.

Lemma after_balance_purchase_events email pointsToAdd w :
  purchase_events (db (after (upsert_user_points email pointsToAdd) w))
  = purchase_events (db w).
Proof.
  unfold after, sql. destruct (outages w) as [|[] rest]; try reflexivity;
    pose proof (user_points_upsert_purchase_events (clock w) email pointsToAdd (db w)) as H;
    simpl; destruct (Exec.user_points_upsert (clock w) email pointsToAdd (db w)); exact H.
Qed.

Lemma after_ledger_outage data w rest :
  outages w = true :: rest ->
  db (after (upsert_purchase_event data) w) = db w.
Proof. intros H. unfold after. rewrite (after_outage _ _ _ H). reflexivity. Qed.

End Helpers.

Arguments after : simpl never.

(** Case analysis over the paths of [Webhook.handle]: the goal is about
    [Webhook.process event w]; on each path the calls of the helpers are
    replaced by the worlds they lead to. *)
Ltac run_helpers :=
  unfold bind, try_catch, ret;
  rewrite ?recordPurchaseEvent_run; cbn iota beta;
  rewrite ?updateUserPoints_run; cbn iota beta.

Ltac session_paths session :=
  unfold Webhook.process, Webhook.handle;
  destruct (Js.present (Js.or (Stripe.metadata session "email")
                              (Stripe.customer_details_email session)))
    as [customer|] eqn:Hcustomer;
  [ destruct (Js.present (Stripe.metadata session "productId"))
      as [pid|] eqn:Hpid;
    [ destruct (getProductById pid) as [product|] eqn:Hproduct;
      [ destruct (0 <? p_points product) eqn:Hpoints | ]
    | ]
  | ];
  run_helpers.

Ltac handle_paths event :=
  destruct event as [session | paymentIntentFailed | type];
  [ session_paths session
  | unfold Webhook.process, Webhook.handle; run_helpers
  | unfold Webhook.process, Webhook.handle; run_helpers ].

(** ** Scenarios used below *)

Module Scenario.

Import Stripe.

(** A new database whose server is reachable. *)
Definition fresh : World := mkWorld empty_db 0 [].

(** The same, with the server out of reach for the next two statements. *)
Definition unreachable : World := mkWorld empty_db 0 [true; true].

(** A completed checkout of the 20 euro product (10 points), with the
    metadata the Checkout Initiator attaches. *)
Definition S1 : CheckoutSession :=
  {| cs_id := "cs_test_S1";
     cs_metadata := Some {[ "email" := "ada@example.com";
                            "productId" := "prod_20euro";
                            "points" := "10" ]};
     cs_customer_details := Some (mkCustomerDetails (Some "ada@example.com"));
     cs_payment_intent := JStr "pi_S1" |}.

(** A completed checkout whose metadata lacks the product. *)
Definition S_no_product : CheckoutSession :=
  {| cs_id := "cs_test_S3";
     cs_metadata := Some {[ "email" := "ada@example.com" ]};
     cs_customer_details := None;
     cs_payment_intent := JNull |}.

(** A completed checkout whose metadata lacks the email, while the
    customer details the provider attaches have one. *)
Definition S_details_only : CheckoutSession :=
  {| cs_id := "cs_test_S8";
     cs_metadata := Some {[ "productId" := "prod_20euro" ]};
     cs_customer_details := Some (mkCustomerDetails (Some "ada@example.com"));
     cs_payment_intent := JStr "pi_S8" |}.

(** Two failures of the same payment intent, with different reasons
    and no customer email. *)
Definition failed (reason : string) : PaymentIntent :=
  {| pi_id := "pi_S2";
     pi_receipt_email := None;
     pi_customer := customer_null;
     pi_last_payment_error := Some (mkLastPaymentError (Some reason));
     pi_latest_charge := charge_id "ch_1";
     pi_status := "requires_payment_method";
     pi_amount := 3500;
     pi_currency := "eur" |}.

(** A stand-in for the provider's signature check, for the examples:
    the header must be the secret followed by the body. *)
Definition constructEvent (buf sig secret : string) : Event + string :=
  if String.eqb sig (secret ++ "." ++ buf)
  then inl (unhandled "ping")
  else inr "No signatures found matching the expected signature for payload.".

End Scenario.

(** ** Failure of the ledger write *)

Section LedgerFailure.

Import Stripe Webhook.

(** C3, as the specification has it, does not hold: with the database
    out of reach, a completed checkout is answered with 200 and
    [{ received: true }], and nothing is recorded. *)
Lemma ledger_outage_acknowledged_cex :
  process (checkout_session_completed Scenario.S1) Scenario.unreachable
  = (Ok (mkResponse (JObj [("received", JBool true)]) 200), mkWorld empty_db 2 []).
Proof. reflexivity. Qed.

(** C3 (amended): for every verified notification whose ledger write
    fails because the storage is unavailable, the failure is caught
    inside [recordPurchaseEvent]; the handler answers 200, so no
    retryable error reaches the caller, and the ledger is left as it
    was. *)
Theorem ledger_outage_is_acknowledged (event : Event) (w : World) (rest : list bool) :
  outages w = true :: rest ->
  exists resp w',
    process event w = (Ok resp, w')
    /\ resp_status resp = 200%nat
    /\ purchase_events (db w') = purchase_events (db w).
Proof.
  intros Hdown.
  handle_paths event; eexists _, _; (split; [reflexivity|]); (split; [reflexivity|]);
    cbn [fst snd];
    rewrite ?after_balance_purchase_events, ?(after_ledger_outage _ _ _ Hdown);
    reflexivity.
Qed.

Lemma ledger_outage_is_acknowledged_witness :
  exists resp w',
    process (checkout_session_completed Scenario.S1) Scenario.unreachable = (Ok resp, w')
    /\ resp_status resp = 200%nat
    /\ purchase_events (db w') = [].
Proof.
  exact (ledger_outage_is_acknowledged
           (checkout_session_completed Scenario.S1) Scenario.unreachable [true] eq_refl).
Defined.

(** X22: whatever the storage does, a verified notification is answered
    with 200: the [catch] of [POST] that answers 500 is never reached. *)
Lemma process_always_200 (event : Event) (w : World) :
  exists resp w', process event w = (Ok resp, w') /\ resp_status resp = 200%nat.
Proof.
  handle_paths event; eexists _, _; split; reflexivity.
Qed.

End LedgerFailure.

(** ** The signature check *)

Section SignatureCheck.

Import Stripe Webhook.

Variable constructEvent : string -> string -> string -> Event + string.
Variable webhookSecret : option string.

(** C5: a notification without a signature header is answered with 400;
    one whose signature does not verify against the raw body and the
    secret is answered with 400; when the secret is not configured, a
    signed notification is answered with 500.  In all three cases the
    world is left exactly as it was: no statement is sent, so there is
    no ledger write and no balance change.  (The header is looked at
    first: without it the answer is 400 whatever the secret.) *)
Theorem unverified_notification_rejected (req : Request) (w : World) :
  (Js.present (req_stripe_signature req) = None ->
     exists body, POST constructEvent webhookSecret req w = (Ok (mkResponse body 400), w))
  /\ (forall sig secret message,
        Js.present (req_stripe_signature req) = Some sig ->
        Js.present webhookSecret = Some secret ->
        constructEvent (req_text req) sig secret = inr message ->
        exists body, POST constructEvent webhookSecret req w = (Ok (mkResponse body 400), w))
  /\ (forall sig,
        Js.present (req_stripe_signature req) = Some sig ->
        Js.present webhookSecret = None ->
        exists body, POST constructEvent webhookSecret req w = (Ok (mkResponse body 500), w)).
Proof.
  unfold POST. repeat split.
  - intros ->. eexists. reflexivity.
  - intros sig secret message -> -> ->. eexists. reflexivity.
  - intros sig -> ->. eexists. reflexivity.
Qed.

(** A notification that verifies is handed to [process] unchanged. *)
Lemma verified_notification_processed (req : Request) (w : World) sig secret event :
  Js.present (req_stripe_signature req) = Some sig ->
  Js.present webhookSecret = Some secret ->
  constructEvent (req_text req) sig secret = inl event ->
  POST constructEvent webhookSecret req w = process event w.
Proof. unfold POST. intros -> -> ->. reflexivity. Qed.

End SignatureCheck.

(** The three cases at work: no header; a header signed for another
    body (the body was tampered with); a signed body and no secret. *)
Lemma unverified_notification_rejected_witness :
  (exists body,
     Webhook.POST Scenario.constructEvent (Some "whsec_1")
       (Webhook.mkRequest "{}" None) Scenario.fresh
     = (Ok (mkResponse body 400), Scenario.fresh))
  /\ (exists body,
        Webhook.POST Scenario.constructEvent (Some "whsec_1")
          (Webhook.mkRequest "{tampered}" (Some "whsec_1.{}")) Scenario.fresh
        = (Ok (mkResponse body 400), Scenario.fresh))
  /\ (exists body,
        Webhook.POST Scenario.constructEvent None
          (Webhook.mkRequest "{}" (Some "whsec_1.{}")) Scenario.fresh
        = (Ok (mkResponse body 500), Scenario.fresh)).
Proof.
  split; [|split].
  - apply (unverified_notification_rejected Scenario.constructEvent (Some "whsec_1")
             (Webhook.mkRequest "{}" None) Scenario.fresh).
    reflexivity.
  - apply (proj1 (proj2 (unverified_notification_rejected Scenario.constructEvent
                           (Some "whsec_1")
                           (Webhook.mkRequest "{tampered}" (Some "whsec_1.{}"))
                           Scenario.fresh))
             "whsec_1.{}" "whsec_1"
             "No signatures found matching the expected signature for payload.");
      reflexivity.
  - apply (proj2 (proj2 (unverified_notification_rejected Scenario.constructEvent None
                           (Webhook.mkRequest "{}" (Some "whsec_1.{}")) Scenario.fresh))
             "whsec_1.{}");
      reflexivity.
Defined.

(** ** The upsert of the ledger *)

Section Upsert.

Import Webhook.

(** The row carries the mutable fields of the notification. *)
Definition overwritten (data : PurchaseEventData) (row : PurchaseEvent) : Prop :=
  pe_status row = status data
  /\ pe_details row = details data
  /\ pe_product_id row = productId data
  /\ Some (Js.Num (pe_seller_id row)) = seller_id data
  /\ pe_points_awarded row = pointsAwarded data.

(** The parameters pass the checks of the server: the texts are free
    of U+0000 and fit their columns, the integers are in range, the
    seller is given, the details can be stored. *)
Definition storable (data : PurchaseEventData) : bool :=
  match seller_id data with
  | Some (Js.Num z) => Pg.int4 z
  | _ => false
  end
  && match pointsAwarded data with
     | Some z => Pg.int4 z
     | None => true
     end
  && Pg.fits 255 (email data)
  && Pg.fits_opt 100 (productId data)
  && Pg.fits 255 (stripeSessionId data)
  && Pg.fits 50 (status data)
  && match details data with
     | Some j => Pg.jsonb j
     | None => true
     end.

(** Storable parameters are taken as they are. *)
Lemma parameters_storable data :
  storable data = true ->
  exists seller,
    seller_id data = Some (Js.Num seller)
    /\ Exec.parameters data = inr (data, Some seller, pointsAwarded data).
Proof.
  unfold storable. intros H.
  repeat match type of H with (_ && _) = true => apply andb_prop in H as [H ?] end.
  destruct data as [customer pid [[|seller]|] sid state points info];
    cbn [seller_id] in *; try discriminate.
  exists seller. split; [reflexivity|].
  cbn [email productId seller_id stripeSessionId status pointsAwarded details] in *.
  unfold Exec.parameters, mbind, error_bind.
  cbn [email productId seller_id stripeSessionId status pointsAwarded details].
  rewrite (bind_text_fits 255 customer), (bind_text_fits 255 sid), (bind_text_fits 50 state)
    by assumption.
  rewrite (integer_int4 seller) by assumption.
  assert (Hproduct : Pg.bind_text_opt pid = inr pid /\ Pg.varchar_opt 100 pid = inr pid).
  { destruct pid as [pid|]; [|split; reflexivity].
    cbn [Pg.fits_opt] in *. unfold Pg.bind_text_opt, Pg.varchar_opt.
    rewrite (fits_text 100 pid), (varchar_fits 100 pid) by assumption. split; reflexivity. }
  destruct Hproduct as [-> Hproduct].
  assert (Hpoints : Pg.integer (option_map Js.Num points) = inr points).
  { destruct points as [z|]; [apply integer_int4; assumption | reflexivity]. }
  rewrite Hpoints.
  assert (Hdetails : Pg.bind_jsonb info = inr info).
  { destruct info as [j|]; [|reflexivity]. unfold Pg.bind_jsonb.
    match goal with Hj : Pg.jsonb j = true |- _ => rewrite Hj end. reflexivity. }
  rewrite Hdetails, Hproduct.
  rewrite (varchar_fits 255 customer), (varchar_fits 255 sid), (varchar_fits 50 state)
    by assumption.
  reflexivity.
Qed.

Lemma on_conflict_split excluded earlier row later :
  Exec.has_session (pe_stripe_session_id excluded) earlier = false ->
  pe_stripe_session_id row = pe_stripe_session_id excluded ->
  Exec.on_conflict excluded (earlier ++ row :: later)%list
  = (earlier ++ Exec.do_update excluded row :: later)%list.
Proof.
  intros Hearlier Hrow. induction earlier as [|r earlier IH]; simpl in *.
  - rewrite Hrow, String.eqb_refl. reflexivity.
  - apply orb_false_elim in Hearlier as [Hr Hearlier].
    rewrite Hr, (IH Hearlier). reflexivity.
Qed.

Lemma on_conflict_fresh excluded rows :
  Exec.has_session (pe_stripe_session_id excluded) rows = false ->
  Exec.on_conflict excluded rows = (rows ++ [excluded])%list.
Proof.
  induction rows as [|r rows IH]; simpl; intros H; [reflexivity|].
  apply orb_false_elim in H as [Hr Hrows].
  rewrite Hr, (IH Hrows). reflexivity.
Qed.

(** What the statement of [recordPurchaseEvent] does to the ledger:
    when it goes through, the row proposed from the parameters the
    server took is added or meets the row of its key. *)
Lemma purchase_event_upsert_effect now data d :
  match snd (Exec.purchase_event_upsert now data d) with
  | None =>
      exists stored seller,
        Exec.parameters data = inr (stored, Some seller, pointsAwarded data)
        /\ purchase_events (fst (Exec.purchase_event_upsert now data d))
           = Exec.on_conflict
               (Exec.proposed (purchase_events_id_seq d) now stored seller
                  (pointsAwarded data))
               (purchase_events d)
  | Some _ =>
      purchase_events (fst (Exec.purchase_event_upsert now data d)) = purchase_events d
  end.
Proof.
  unfold Exec.purchase_event_upsert.
  destruct (Exec.parameters data) as [e|[[stored seller] points]] eqn:Hparameters;
    [reflexivity|].
  destruct seller as [seller|]; [|reflexivity].
  destruct (parameters_inr _ _ _ _ Hparameters) as (_ & _ & _ & _ & _ & _ & ->).
  exists stored, seller. split; reflexivity.
Qed.

Lemma sql_upsert_effect data w :
  user_points (db (snd (sql (upsert_purchase_event data) w))) = user_points (db w)
  /\ match fst (sql (upsert_purchase_event data) w) with
     | Ok _ =>
         exists stored seller,
           Exec.parameters data = inr (stored, Some seller, pointsAwarded data)
           /\ purchase_events (db (snd (sql (upsert_purchase_event data) w)))
              = Exec.on_conflict
                  (Exec.proposed (purchase_events_id_seq (db w)) (clock w) stored seller
                     (pointsAwarded data))
                  (purchase_events (db w))
     | Throw _ =>
         purchase_events (db (snd (sql (upsert_purchase_event data) w)))
         = purchase_events (db w)
     end.
Proof.
  split; [apply after_ledger_user_points|].
  pose proof (purchase_event_upsert_effect (clock w) data (db w)) as H.
  unfold sql. destruct (outages w) as [|[] rest]; [|reflexivity|].
  all: cbn [Exec.statement];
    destruct (Exec.purchase_event_upsert (clock w) data (db w)) as [d [e|]]; exact H.
Qed.

(** With the server reachable, storable parameters are accepted, and
    the proposed row carries them as they are. *)
Lemma storable_accepted data w :
  head (outages w) <> Some true ->
  storable data = true ->
  exists seller,
    seller_id data = Some (Js.Num seller)
    /\ fst (sql (upsert_purchase_event data) w) = Ok tt
    /\ purchase_events (db (after (upsert_purchase_event data) w))
       = Exec.on_conflict
           (Exec.proposed (purchase_events_id_seq (db w)) (clock w) data seller
              (pointsAwarded data))
           (purchase_events (db w)).
Proof.
  intros Hup Hok. destruct (parameters_storable data Hok) as (seller & Hseller & Hparameters).
  exists seller. split; [exact Hseller|].
  unfold after. rewrite (after_reachable _ _ Hup). cbn [fst snd db Exec.statement].
  unfold Exec.purchase_event_upsert. rewrite Hparameters. split; reflexivity.
Qed.

(** C7: when a notification is recorded for a session id that already
    has its row, that row keeps its place, its [id], its [email] (the
    customer), its [timestamp] and its key; all other rows and the
    balances are untouched, and no row is added.  When the server is
    reachable and the parameters are storable (texts without U+0000
    that fit their columns, integers in range, a seller), the five
    mutable fields ([status], [details], [product_id], [seller_id],
    [points_awarded]) of the row are those of the notification. *)
Theorem upsert_overwrites_mutable_fields_only
    (data : PurchaseEventData) (w : World)
    (earlier later : list PurchaseEvent) (row : PurchaseEvent) :
  purchase_events (db w) = (earlier ++ row :: later)%list ->
  pe_stripe_session_id row = stripeSessionId data ->
  Pg.fits 255 (stripeSessionId data) = true ->
  Exec.has_session (stripeSessionId data) earlier = false ->
  exists row' w',
    recordPurchaseEvent data w = (Ok tt, w')
    /\ purchase_events (db w') = (earlier ++ row' :: later)%list
    /\ pe_id row' = pe_id row
    /\ pe_email row' = pe_email row
    /\ pe_timestamp row' = pe_timestamp row
    /\ pe_stripe_session_id row' = pe_stripe_session_id row
    /\ user_points (db w') = user_points (db w)
    /\ (head (outages w) <> Some true -> storable data = true -> overwritten data row').
Proof.
  intros Hrows Hrow Hkey Hearlier.
  destruct (sql_upsert_effect data w) as [Hbalances Hledger].
  rewrite recordPurchaseEvent_run. unfold after.
  destruct (fst (sql (upsert_purchase_event data) w)) as [[]|e] eqn:Hrun.
  - destruct Hledger as (stored & seller & Hparameters & Hledger).
    destruct (parameters_inr _ _ _ _ Hparameters)
      as (_ & Hproduct & Hsid & Hstatus & Hdetails & Hseller & _).
    rewrite (varchar_fits _ _ Hkey) in Hsid. injection Hsid as Hsid.
    exists (Exec.do_update
              (Exec.proposed (purchase_events_id_seq (db w)) (clock w) stored seller
                 (pointsAwarded data)) row),
      (snd (sql (upsert_purchase_event data) w)).
    split; [reflexivity|]. split.
    { rewrite Hledger, Hrows. apply on_conflict_split; cbn [Exec.proposed pe_stripe_session_id];
        congruence. }
    do 4 (split; [reflexivity|]). split; [exact Hbalances|].
    intros _ Hok. destruct (parameters_storable data Hok) as (seller' & Hseller' & Hsame).
    rewrite Hsame in Hparameters. injection Hparameters as <- <-.
    repeat split. simpl. congruence.
  - exists row, (snd (sql (upsert_purchase_event data) w)).
    split; [reflexivity|]. split; [congruence|].
    do 4 (split; [reflexivity|]). split; [exact Hbalances|].
    intros Hup Hok. destruct (storable_accepted data w Hup Hok) as (_ & _ & Haccepted & _).
    congruence.
Qed.

End Upsert.

(** ** A completed checkout without its metadata *)

Section MissingMetadata.

Import Stripe Webhook.

(** [session.metadata?.email || session.customer_details?.email] *)
Definition customer_of (session : CheckoutSession) : option string :=
  Js.or (metadata session "email") (customer_details_email session).

(** [parseInt(session.metadata?.sellerId || '0', 10)] *)
Definition sellerId_of (session : CheckoutSession) : Js.number :=
  Js.parseInt (Js.or_else (metadata session "sellerId") "0").

(** What the handler records of the session is taken by the server as
    it is: the session id, the customer (or the stand-in for a missing
    one) and the product id are texts without U+0000 that fit their
    columns, and the seller id is an integer. *)
Definition recordable (session : CheckoutSession) : bool :=
  Pg.fits 255 (cs_id session)
  && Pg.fits 255 (Js.or_else (customer_of session) "unknown@example.com")
  && Pg.fits_opt 100 (metadata session "productId")
  && match sellerId_of session with
     | Js.Num z => Pg.int4 z
     | Js.NaN => false
     end.

Lemma recordable_session session :
  recordable session = true ->
  Pg.fits 255 (cs_id session) = true
  /\ Pg.fits 255 (Js.or_else (customer_of session) "unknown@example.com") = true
  /\ Pg.fits_opt 100 (metadata session "productId") = true
  /\ exists seller, sellerId_of session = Js.Num seller /\ Pg.int4 seller = true.
Proof.
  unfold recordable. intros H.
  repeat match type of H with (_ && _) = true => apply andb_prop in H as [H ?] end.
  repeat split; try assumption.
  destruct (sellerId_of session) as [|seller]; [discriminate|].
  exists seller. split; [reflexivity | assumption].
Qed.

Lemma rows_for_on_conflict excluded rows :
  List.filter (fun row => String.eqb (pe_stripe_session_id row)
                                     (pe_stripe_session_id excluded))
    (Exec.on_conflict excluded rows)
  = match List.filter (fun row => String.eqb (pe_stripe_session_id row)
                                             (pe_stripe_session_id excluded)) rows with
    | [] => [excluded]
    | row :: others => Exec.do_update excluded row :: others
    end.
Proof.
  induction rows as [|r rows IH]; simpl.
  - rewrite String.eqb_refl. reflexivity.
  - destruct (String.eqb (pe_stripe_session_id r) (pe_stripe_session_id excluded)) eqn:Hr;
      simpl; rewrite Hr; [reflexivity | exact IH].
Qed.

(** What [recordPurchaseEvent] leaves for a key, when the server is
    reachable and the parameters are storable. *)
Lemma accepted_rows_for data w :
  head (outages w) <> Some true ->
  storable data = true ->
  exists seller,
    seller_id data = Some (Js.Num seller)
    /\ rows_for (stripeSessionId data) (db (after (upsert_purchase_event data) w))
       = match rows_for (stripeSessionId data) (db w) with
         | [] => [Exec.proposed (purchase_events_id_seq (db w)) (clock w) data seller
                    (pointsAwarded data)]
         | row :: others =>
             Exec.do_update
               (Exec.proposed (purchase_events_id_seq (db w)) (clock w) data seller
                  (pointsAwarded data)) row :: others
         end.
Proof.
  intros Hup Hok.
  destruct (storable_accepted data w Hup Hok) as (seller & Hseller & _ & Hrows).
  exists seller. split; [exact Hseller|].
  unfold rows_for. rewrite Hrows.
  apply (rows_for_on_conflict
           (Exec.proposed (purchase_events_id_seq (db w)) (clock w) data seller
              (pointsAwarded data))).
Qed.

(** The parameters of the three calls of [recordPurchaseEvent] for a
    completed checkout are storable when the session is recordable. *)
Lemma missing_metadata_storable session :
  recordable session = true ->
  storable
    {| email := Js.or_else (customer_of session) "unknown@example.com";
       stripeSessionId := cs_id session;
       status := "ERROR_MISSING_METADATA";
       productId := metadata session "productId";
       seller_id := Some (sellerId_of session);
       pointsAwarded := None;
       details := Some (Js.obj
         [("error", Some (JStr "Email or productId not found in session metadata"))]) |}
  = true.
Proof.
  intros Hfits.
  destruct (recordable_session session Hfits) as (Hsid & Hcustomer & Hpid & z & Hseller & Hz).
  unfold storable. cbn [email productId seller_id stripeSessionId status pointsAwarded details].
  rewrite Hseller, Hz, Hcustomer, Hpid, Hsid. reflexivity.
Qed.


Lemma catalogue_names pid product :
  getProductById pid = Some product -> Pg.text (p_name product) = true.
Proof.
  unfold getProductById, products. simpl.
  repeat match goal with
         | |- context [if ?b then _ else _] => destruct b
         end; intros H; inversion H; subst; reflexivity.
Qed.

Lemma payment_success_storable session customer pid product :
  Js.present (customer_of session) = Some customer ->
  Js.present (metadata session "productId") = Some pid ->
  getProductById pid = Some product ->
  recordable session = true ->
  Pg.jsonb (cs_payment_intent session) = true ->
  storable
    {| email := customer;
       productId := Some pid;
       seller_id := Some (sellerId_of session);
       stripeSessionId := cs_id session;
       status := "PAYMENT_SUCCESS";
       pointsAwarded := Some (p_points product);
       details := Some (Js.obj
         [("product_name", Some (JStr (p_name product)));
          ("price_paid", Some (JNum (p_price product)));
          ("payment_intent", Some (cs_payment_intent session))]) |}
  = true.
Proof.
  intros Hc Hp Hprod Hfits Hintent.
  destruct (recordable_session session Hfits) as (Hsid & Hcustomer & Hpid & z & Hseller & Hz).
  unfold Js.or_else in Hcustomer. rewrite Hc in Hcustomer.
  unfold Js.present in Hp. destruct (Js.truthy _); [|discriminate]. rewrite Hp in Hpid.
  cbn [Pg.fits_opt] in Hpid.
  assert (Hint : Pg.int4 (p_points product) = true).
  { unfold getProductById, products in Hprod. simpl in Hprod.
    repeat match type of Hprod with
           | (if ?b then _ else _) = _ => destruct b
           end; inversion Hprod; subst; reflexivity. }
  unfold storable. cbn [email productId seller_id stripeSessionId status pointsAwarded details].
  rewrite Hseller, Hz, Hint, Hcustomer, Hsid. cbn [Pg.fits_opt]. rewrite Hpid.
  cbn [Js.obj omap list_omap snd fst Pg.jsonb forallb].
  rewrite (catalogue_names _ _ Hprod), Hintent. reflexivity.
Qed.

(** C6, as the specification has it, does not hold.  A completed
    checkout whose metadata has the product but not the email is not
    treated as lacking its customer: [POST] falls back on the email of
    the customer details, records PAYMENT_SUCCESS and awards the
    points.  And the row written for a completed checkout without a
    product id has the status ERROR_MISSING_METADATA, but its
    [points_awarded] is NULL, not 0: the handler passes no
    [pointsAwarded], and the column has no default. *)
Lemma missing_metadata_claim_cex :
  let w := snd (process (checkout_session_completed Scenario.S_details_only)
                  Scenario.fresh) in
  metadata Scenario.S_details_only "email" = None
  /\ List.map (fun row => (pe_email row, pe_status row, pe_points_awarded row))
       (rows_for "cs_test_S8" (db w))
     = [("ada@example.com", "PAYMENT_SUCCESS", Some 10)]
  /\ totalPoints "ada@example.com" (db w) = 10
  /\ List.map (fun row => (pe_status row, pe_points_awarded row))
       (rows_for "cs_test_S3"
          (db (snd (process (checkout_session_completed Scenario.S_no_product)
                      Scenario.fresh))))
     = [("ERROR_MISSING_METADATA", None)].
Proof. repeat split. Qed.

(** C6 (amended): a verified completed checkout for which no email is
    found, neither in the metadata nor in the customer details, or
    whose metadata has no product id, is answered with 200 (no retry)
    and changes no balance; when the server is reachable and the
    session is recordable (session id, stand-in email and product id
    are texts without U+0000 that fit their columns, the seller id is
    an integer), the one row of the session afterwards has the status
    ERROR_MISSING_METADATA.  Nothing is said of its [points_awarded]. *)
Theorem missing_metadata_recorded (session : CheckoutSession) (w : World) :
  Js.present (customer_of session) = None
  \/ Js.present (metadata session "productId") = None ->
  exists resp w',
    process (checkout_session_completed session) w = (Ok resp, w')
    /\ resp_status resp = 200%nat
    /\ user_points (db w') = user_points (db w)
    /\ (head (outages w) <> Some true ->
        recordable session = true ->
        (length (rows_for (cs_id session) (db w)) <= 1)%nat ->
        exists row,
          rows_for (cs_id session) (db w') = [row]
          /\ pe_status row = "ERROR_MISSING_METADATA").
Proof.
  unfold customer_of. intros Hlacks.
  session_paths session;
    try (exfalso; destruct Hlacks; congruence);
    (eexists _, _; split; [reflexivity|]; split; [reflexivity|];
     cbn [fst snd]; split; [apply after_ledger_user_points|]).
  all: intros Hup Hfits Hone;
    match goal with
    | |- context [after (upsert_purchase_event ?data) ?w0] =>
        destruct (accepted_rows_for data w0 Hup) as (z & _ & Hrows);
          [exact (missing_metadata_storable session Hfits)|]
    end;
    cbn [stripeSessionId] in Hrows; rewrite Hrows;
    destruct (rows_for (cs_id session) (db w)) as [|row [|row' others]];
    [ eexists; repeat split
    | eexists; repeat split
    | simpl in Hone; lia ].
Qed.

(** The session without a product id, on a new database. *)
Lemma missing_metadata_recorded_witness :
  exists resp w',
    process (checkout_session_completed Scenario.S_no_product) Scenario.fresh = (Ok resp, w')
    /\ resp_status resp = 200%nat
    /\ user_points (db w') = ∅
    /\ exists row,
         rows_for "cs_test_S3" (db w') = [row]
         /\ pe_status row = "ERROR_MISSING_METADATA".
Proof.
  destruct (missing_metadata_recorded Scenario.S_no_product Scenario.fresh)
    as (resp & w' & Hrun & Hstatus & Hbalances & Hrow).
  - right. reflexivity.
  - exists resp, w'. split; [exact Hrun|]. split; [exact Hstatus|].
    split; [exact Hbalances|].
    apply Hrow; [discriminate | reflexivity | simpl; lia].
Defined.

End MissingMetadata.

(** A ledger of two rows, as two completed checkouts leave them; the
    session of the second is notified again, now with a product the
    catalogue does not have, as [POST] records it. *)
Lemma upsert_overwrites_mutable_fields_only_witness :
  let first := mkPurchaseEvent 1 10 "bob@example.com" (Some "prod_35euro") "cs_test_S0"
                 "PAYMENT_SUCCESS" 0 (Some 20)
                 (Some (JObj [("product_name", JStr "Product 35 Euro");
                              ("price_paid", JNum 35);
                              ("payment_intent", JStr "pi_S0")])) in
  let second := mkPurchaseEvent 2 20 "ada@example.com" (Some "prod_20euro") "cs_test_S1"
                  "PAYMENT_SUCCESS" 0 (Some 10)
                  (Some (JObj [("product_name", JStr "Product 20 Euro");
                               ("price_paid", JNum 20);
                               ("payment_intent", JStr "pi_S1")])) in
  let w := mkWorld (mkDb [first; second] 3 ∅) 30 [] in
  let data :=
    {| email := "ada@example.com";
       stripeSessionId := "cs_test_S1";
       status := "ERROR_PRODUCT_NOT_FOUND";
       productId := Some "prod_x";
       seller_id := Some (Js.Num 7);
       pointsAwarded := None;
       details := Some (JObj [("error", JStr "Product ID prod_x not found.")]) |} in
  exists row' w',
    Webhook.recordPurchaseEvent data w = (Ok tt, w')
    /\ purchase_events (db w') = [first; row']
    /\ pe_id row' = 2%nat
    /\ pe_email row' = "ada@example.com"
    /\ pe_timestamp row' = 20%nat
    /\ pe_stripe_session_id row' = "cs_test_S1"
    /\ user_points (db w') = ∅
    /\ overwritten data row'.
Proof.
  intros first second w data.
  destruct (upsert_overwrites_mutable_fields_only data w [first] [] second
              eq_refl eq_refl eq_refl eq_refl)
    as (row' & w' & Hrun & Hrows & Hid & Hemail & Htime & Hkey & Hbalances & Hover).
  exists row', w'.
  split; [exact Hrun|]. split; [exact Hrows|]. split; [exact Hid|]. split; [exact Hemail|].
  split; [exact Htime|]. split; [exact Hkey|]. split; [exact Hbalances|].
  apply Hover; [discriminate | reflexivity].
Defined.

(** ** The statuses written to the ledger *)

Section Statuses.

Import Stripe.

Variable constructEvent : string -> string -> string -> Event + string.
Variable webhookSecret : option string.
Variable expectedSecret : option string.
Variable toISOString : nat -> string.

(** The statuses of the data model of the specification. *)
Definition spec_statuses : list string :=
  [ "INITIATED"; "PAYMENT_SUCCESS"; "PAYMENT_FAILED"; "CANCELLED";
    "ERROR_MISSING_METADATA"; "ERROR_PRODUCT_NOT_FOUND" ].

(** The same, with the status of the cancellation log. *)
Definition written_statuses : list string := "cancelled_by_user" :: spec_statuses.

(** The requests that can reach the tables. *)
Inductive Operation : Type :=
| stripe_webhook (req : Webhook.Request)
| log_cancellation (req : LogCancellation.Request).

Definition run (op : Operation) : M Response :=
  match op with
  | stripe_webhook req => Webhook.POST constructEvent webhookSecret req
  | log_cancellation req => LogCancellation.POST expectedSecret toISOString req
  end.

Lemma on_conflict_In excluded rows row :
  In row (Exec.on_conflict excluded rows) ->
  In row rows \/ pe_status row = pe_status excluded.
Proof.
  induction rows as [|r rows IH]; simpl.
  - intros [<-|[]]. right. reflexivity.
  - destruct (String.eqb (pe_stripe_session_id r) (pe_stripe_session_id excluded)).
    + intros [<-|Hin]; [right; reflexivity | left; right; exact Hin].
    + intros [<-|Hin]; [left; left; reflexivity|].
      destruct (IH Hin) as [Hold|Hnew]; [left; right; exact Hold | right; exact Hnew].
Qed.

(** A row of the ledger after a statement is a row from before, or
    has the status the statement carries. *)
Lemma after_upsert_In data w row :
  In row (purchase_events (db (after (upsert_purchase_event data) w))) ->
  In row (purchase_events (db w)) \/ Pg.varchar 50 (status data) = inr (pe_status row).
Proof.
  destruct (sql_upsert_effect data w) as [_ Heffect]. unfold after.
  destruct (fst (sql (upsert_purchase_event data) w)).
  - destruct Heffect as (stored & seller & Hparameters & ->).
    destruct (parameters_inr _ _ _ _ Hparameters) as (_ & _ & _ & Hstatus & _).
    intros Hin. apply on_conflict_In in Hin as [Hold|Hnew]; [left; exact Hold|].
    right. rewrite Hnew. exact Hstatus.
  - rewrite Heffect. intros H. left. exact H.
Qed.

Lemma after_cancellation_In data w row :
  In row (purchase_events (db (snd (sql (insert_cancellation data) w)))) ->
  In row (purchase_events (db w)) \/ Pg.varchar 50 (c_status data) = inr (pe_status row).
Proof.
  unfold sql. destruct (outages w) as [|[] rest]; [|left; assumption|].
  all: cbn [Exec.statement]; unfold Exec.cancellation_insert.
  all: destruct (Exec.cancellation_parameters data) as [e|stored] eqn:Hparameters;
    [left; assumption|].
  all: destruct (cancellation_parameters_inr _ _ Hparameters) as (_ & _ & _ & Hstatus & _).
  all: destruct (Exec.has_session _ _); [left; assumption|].
  all: cbn [fst snd db purchase_events Exec.set_purchase_events negb Exec.next_id].
  all: intros Hin; apply in_app_or in Hin as [Hold|[<-|[]]];
    [left; exact Hold | right; exact Hstatus].
Qed.

Lemma process_In event w row :
  In row (purchase_events (db (snd (Webhook.process event w)))) ->
  In row (purchase_events (db w)) \/ In (pe_status row) written_statuses.
Proof.
  handle_paths event; cbn [fst snd]; rewrite ?after_balance_purchase_events;
    try (intros H; left; exact H);
    intros H; apply after_upsert_In in H as [Hold|Hnew];
    try (left; exact Hold); right;
    (apply varchar_status in Hnew; [|reflexivity]); rewrite Hnew; simpl; tauto.
Qed.

(** C9, as the specification has it, does not hold: the row that the
    cancellation log writes has the status cancelled_by_user, which is
    not one of the six statuses of the data model. *)
Lemma cancellation_status_cex :
  let req := LogCancellation.mkRequest (Some "admin-secret")
               (inl (LogCancellation.mkBody (Some "ada@example.com") (Some "prod_20euro")
                       (Some "cs_test_S4"))) in
  List.map pe_status
    (purchase_events
       (db (snd (LogCancellation.POST (Some "admin-secret") (fun _ => "2025-06-01T00:00:00.000Z")
                   req Scenario.fresh))))
  = ["cancelled_by_user"]
  /\ ~ In "cancelled_by_user" spec_statuses.
Proof.
  split; [reflexivity|]. simpl. intros H.
  repeat (destruct H as [H|H]; [discriminate|]). exact H.
Qed.

(** C9 (amended): every row of the ledger after a request to the
    webhook or to the cancellation log is a row that was there before,
    untouched, or has a status among INITIATED, PAYMENT_SUCCESS,
    PAYMENT_FAILED, CANCELLED, ERROR_MISSING_METADATA,
    ERROR_PRODUCT_NOT_FOUND and cancelled_by_user. *)
Theorem written_rows_have_known_status (op : Operation) (w : World) (row : PurchaseEvent) :
  In row (purchase_events (db (snd (run op w)))) ->
  In row (purchase_events (db w)) \/ In (pe_status row) written_statuses.
Proof.
  destruct op as [req|req]; cbn [run].
  - unfold Webhook.POST.
    destruct (Js.present (Webhook.req_stripe_signature req)) as [sig|];
      [|intros H; left; exact H].
    destruct (Js.present webhookSecret) as [secret|]; [|intros H; left; exact H].
    destruct (constructEvent (Webhook.req_text req) sig secret) as [event|message];
      [apply process_In | intros H; left; exact H].
  - unfold LogCancellation.POST.
    destruct (negb (Js.truthy expectedSecret) || _); [intros H; left; exact H|].
    destruct (LogCancellation.req_json req) as [body|message];
      [|intros H; left; exact H].
    unfold try_catch.
    destruct (Js.present (LogCancellation.body_email body)) as [email|];
      [|intros H; left; exact H].
    destruct (Js.present (LogCancellation.body_productId body)) as [pid|];
      [|intros H; left; exact H].
    destruct (Js.present (LogCancellation.body_stripeSessionId body)) as [sid|];
      [|intros H; left; exact H].
    destruct (getProductById pid) as [product|]; [|intros H; left; exact H].
    unfold bind, ret.
    match goal with
    | |- context [sql (insert_cancellation ?data) w] =>
        pose proof (after_cancellation_In data w row) as Hstep;
        destruct (sql (insert_cancellation data) w) as [[[]|e] w']
    end; cbn [fst snd] in *; intros H; apply Hstep in H as [Hold|Hnew];
      try (left; exact Hold); right;
      (apply varchar_status in Hnew; [|reflexivity]); rewrite Hnew; simpl; tauto.
Qed.

End Statuses.

(** The row written for a completed checkout of the 20 euro product has
    one of the statuses. *)
Lemma written_rows_have_known_status_witness :
  let req := Webhook.mkRequest "{}" (Some "whsec_1.{}") in
  let verify := fun _ _ _ : string =>
    inl (Stripe.checkout_session_completed Scenario.S1) : Stripe.Event + string in
  let row := mkPurchaseEvent 1 0 "ada@example.com" (Some "prod_20euro") "cs_test_S1"
               "PAYMENT_SUCCESS" 0 (Some 10)
               (Some (JObj [("product_name", JStr "Product 20 Euro");
                            ("price_paid", JNum 20);
                            ("payment_intent", JStr "pi_S1")])) in
  In row (purchase_events (db Scenario.fresh)) \/ In (pe_status row) written_statuses.
Proof.
  intros req verify row.
  apply (written_rows_have_known_status verify (Some "whsec_1") None (fun _ => "1970-01-01T00:00:00.000Z")
           (stripe_webhook req) Scenario.fresh row).
  left. reflexivity.
Defined.

(** ** Redelivery of a completed checkout *)

Section Redelivery.

Import Stripe Webhook.

(** C1: the code does not do what the claim says.  The same
    completed-checkout notification, for the 20 euro product worth 10
    points, is handled twice on a new database: the ledger holds one
    row for the session, but the balance of the customer is 20, two
    times the points of the product. *)
Theorem duplicate_delivery_awards_points_twice :
  let w := deliver [checkout_session_completed Scenario.S1;
                    checkout_session_completed Scenario.S1] Scenario.fresh in
  p_points <$> getProductById "prod_20euro" = Some 10
  /\ length (rows_for "cs_test_S1" (db w)) = 1%nat
  /\ totalPoints "ada@example.com" (db w) = 20.
Proof. repeat split. Qed.

(** C2: the code does not do what the claim says.  After the same two
    deliveries the customer's [total_points] is 20, while her rows of
    status PAYMENT_SUCCESS sum up to 10 points. *)
Theorem duplicate_delivery_breaks_balance_invariant :
  let w := deliver [checkout_session_completed Scenario.S1;
                    checkout_session_completed Scenario.S1] Scenario.fresh in
  totalPoints "ada@example.com" (db w) = 20
  /\ successPoints "ada@example.com" (db w) = 10.
Proof. repeat split. Qed.

Lemma catalogue_points pid product :
  getProductById pid = Some product -> 0 < p_points product <= 30.
Proof.
  unfold getProductById, products. simpl.
  repeat match goal with
         | |- context [if ?b then _ else _] => destruct b
         end; intros H; inversion H; subst; simpl; lia.
Qed.

(** The balance statement adds the points, whatever the ledger holds. *)
Lemma user_points_upsert_total now customer points d :
  Pg.int4 points = true ->
  Pg.fits 255 customer = true ->
  Pg.int4 (totalPoints customer d + points) = true ->
  totalPoints customer (fst (Exec.user_points_upsert now customer points d))
  = totalPoints customer d + points.
Proof.
  intros Hpoints Hsize Hsum. unfold Exec.user_points_upsert, totalPoints in *.
  unfold mbind, error_bind.
  rewrite (bind_text_fits _ _ Hsize), (integer_int4 _ Hpoints), (varchar_fits _ _ Hsize).
  destruct (user_points d !! customer) as [row|] eqn:Hrow.
  - rewrite Hsum. simpl. rewrite lookup_insert_eq. reflexivity.
  - simpl. rewrite lookup_insert_eq. reflexivity.
Qed.

(** Every delivery of a completed checkout of a known product adds the
    points of the product to the customer's balance: the handler does
    not look at the row the session may already have. *)
Lemma each_delivery_awards_points session customer pid product w :
  Js.present (customer_of session) = Some customer ->
  Js.present (metadata session "productId") = Some pid ->
  getProductById pid = Some product ->
  outages w = [] ->
  Pg.fits 255 customer = true ->
  Pg.int4 (totalPoints customer (db w) + p_points product) = true ->
  let w' := snd (process (checkout_session_completed session) w) in
  totalPoints customer (db w') = totalPoints customer (db w) + p_points product
  /\ outages w' = [].
Proof.
  unfold customer_of. intros Hc Hp Hprod Hup Hsize Hsum.
  pose proof (catalogue_points _ _ Hprod) as Hrange.
  unfold process, handle. rewrite Hc, Hp, Hprod.
  destruct (0 <? p_points product) eqn:Hpos; [|apply Z.ltb_ge in Hpos; lia].
  run_helpers. cbn [fst snd].
  match goal with
  | |- context [after (upsert_purchase_event ?data) w] =>
      pose proof (after_ledger_user_points data w) as Hsame;
      set (w1 := after (upsert_purchase_event data) w) in *
  end.
  assert (Hup1 : outages w1 = []).
  { subst w1. unfold after, sql. rewrite Hup.
    destruct (Exec.statement _ _ _). reflexivity. }
  unfold after at 1 2. rewrite after_reachable by (rewrite Hup1; discriminate).
  cbn [fst snd db outages Exec.statement]. rewrite Hup1. split; [|reflexivity].
  assert (Htotal : totalPoints customer (db w1) = totalPoints customer (db w))
    by (unfold totalPoints; rewrite Hsame; reflexivity).
  rewrite user_points_upsert_total; rewrite ?Htotal; try assumption; try reflexivity.
  unfold Pg.int4. apply andb_true_intro. split; [apply Z.leb_le | apply Z.ltb_lt]; lia.
Qed.

(** X24: [n] deliveries of the same notification add [n] times the
    points. *)
Lemma redelivery_awards_every_time session customer pid product n : forall w,
  Js.present (customer_of session) = Some customer ->
  Js.present (metadata session "productId") = Some pid ->
  getProductById pid = Some product ->
  outages w = [] ->
  Pg.fits 255 customer = true ->
  0 <= totalPoints customer (db w) ->
  totalPoints customer (db w) + Z.of_nat n * p_points product < 2 ^ 31 ->
  totalPoints customer (db (deliver (repeat (checkout_session_completed session) n) w))
  = totalPoints customer (db w) + Z.of_nat n * p_points product.
Proof.
  induction n as [|n IH]; intros w Hc Hp Hprod Hup Hsize Hnonneg Hbound.
  - simpl. lia.
  - pose proof (catalogue_points _ _ Hprod) as Hrange.
    cbn [repeat deliver].
    destruct (each_delivery_awards_points session customer pid product w)
      as [Hstep Hup']; try assumption.
    { unfold Pg.int4. apply andb_true_intro. split; [apply Z.leb_le | apply Z.ltb_lt]; nia. }
    rewrite IH; try assumption; rewrite ?Hstep; nia.
Qed.







End Redelivery.

(** ** Failed payments *)

Section FailedPayments.

Import Stripe Webhook.

(** The statement of a failed payment is always rejected when it
    reaches the server: [recordPurchaseEvent] is called without
    [seller_id], the parameter is NULL, and the column is NOT NULL. *)
Lemma payment_failed_statement_rejected data now d :
  seller_id data = None ->
  exists e d', Exec.purchase_event_upsert now data d = (d', Some e)
               /\ purchase_events d' = purchase_events d.
Proof.
  intros Hseller. unfold Exec.purchase_event_upsert.
  destruct (Exec.parameters data) as [e|[[stored seller] points]] eqn:Hparameters; [eauto|].
  destruct (parameters_inr _ _ _ _ Hparameters) as (_ & _ & _ & _ & _ & Hnull & _).
  rewrite Hseller in Hnull. injection Hnull as <-. eauto.
Qed.

(** X23: a payment-failed notification never changes the ledger: its
    statement binds no seller, and the column refuses the NULL. *)
Lemma payment_failed_never_recorded paymentIntentFailed w :
  purchase_events (db (snd (process (payment_intent_payment_failed paymentIntentFailed) w)))
  = purchase_events (db w).
Proof.
  unfold process, handle. run_helpers. cbn [fst snd].
  match goal with
  | |- context [after (upsert_purchase_event ?data) w] =>
      destruct (sql_upsert_effect data w) as [_ Heffect]; unfold after;
        destruct (fst (sql (upsert_purchase_event data) w))
  end.
  - destruct Heffect as (stored & seller & Hparameters & _).
    destruct (parameters_inr _ _ _ _ Hparameters) as (_ & _ & _ & _ & _ & Hnull & _).
    discriminate Hnull.
  - exact Heffect.
Qed.

(** C4: the code does not do what the claim says.  Two payment-failed
    notifications for the same payment intent, with different reasons,
    are handled on a new database whose server is reachable: both are
    answered with 200, and the ledger holds no row for the payment
    intent, where the claim has one row with the later reason. *)
Theorem payment_failures_leave_no_row :
  let first := payment_intent_payment_failed (Scenario.failed "Your card was declined.") in
  let second :=
    payment_intent_payment_failed (Scenario.failed "Your card has insufficient funds.") in
  fst (sql (upsert_purchase_event
              (mkData "unknown@example.com" None None "pi_S2" "PAYMENT_FAILED" None None))
         Scenario.fresh)
  = Throw (Pg.not_null_violation "seller_id")
  /\ answered (process first Scenario.fresh) = Some 200%nat
  /\ answered (process second (deliver [first] Scenario.fresh)) = Some 200%nat
  /\ rows_for "pi_S2" (db (deliver [first; second] Scenario.fresh)) = [].
Proof. repeat split. Qed.

(** C10: the code does not do what the claim says.  A payment-failed
    notification without a receipt email and without a customer
    resolves to the stand-in unknown@example.com, and is answered with
    200, but no row is recorded for it. *)
Theorem failed_payment_of_unknown_customer_not_recorded :
  let paymentIntentFailed := Scenario.failed "Your card was declined." in
  emailForFailedPI paymentIntentFailed = "unknown@example.com"
  /\ purchase_events
       (db (snd (process (payment_intent_payment_failed paymentIntentFailed) Scenario.fresh)))
     = [].
Proof. repeat split. Qed.

(** X26: a completed checkout for which no email can be found is
    recorded under unknown@example.com, when the session has no row
    yet. *)
Lemma completed_checkout_of_unknown_customer_recorded session w :
  Js.present (customer_of session) = None ->
  head (outages w) <> Some true ->
  recordable session = true ->
  rows_for (cs_id session) (db w) = [] ->
  exists row,
    rows_for (cs_id session) (db (snd (process (checkout_session_completed session) w))) = [row]
    /\ pe_email row = "unknown@example.com"
    /\ pe_status row = "ERROR_MISSING_METADATA".
Proof.
  intros Hnone Hup Hfits Hfresh.
  pose proof (missing_metadata_storable session Hfits) as Hstorable.
  unfold customer_of in Hnone. unfold process, handle. rewrite Hnone. run_helpers.
  cbn [fst snd].
  match goal with
  | |- context [after (upsert_purchase_event ?data) w] =>
      destruct (accepted_rows_for data w Hup) as (seller & _ & Hrows);
        [exact Hstorable|]
  end.
  cbn [stripeSessionId] in Hrows. rewrite Hrows, Hfresh.
  eexists. split; [reflexivity|]. split; [|reflexivity].
  cbn [pe_email Exec.proposed email]. unfold Js.or_else. rewrite Hnone. reflexivity.
Qed.

End FailedPayments.

(** ** The metadata of a checkout session *)

Section CheckoutMetadata.

Import CheckoutSessions.

Variable NEXT_PUBLIC_APP_URL : option string.
Variable encodeURIComponent : string -> string.

(** The metadata of every session request has exactly the keys
    [email], [productId] and [points]. *)
Lemma outbound_metadata body params :
  outbound NEXT_PUBLIC_APP_URL encodeURIComponent body = Some params ->
  exists customer pid product,
    Js.present (body_email body) = Some customer
    /\ Js.present (body_productId body) = Some pid
    /\ getProductById pid = Some product
    /\ metadata params = {[ "email" := customer;
                            "productId" := pid;
                            "points" := Js.toString (p_points product) ]}
    /\ unit_amount params = p_price product * 100.
Proof.
  unfold outbound.
  destruct (Js.present (body_email body)) as [customer|]; [|discriminate].
  destruct (Js.present (body_productId body)) as [pid|]; [|discriminate].
  destruct (getProductById pid) as [product|] eqn:Hproduct; [|discriminate].
  intros [= <-]. exists customer, pid, product. repeat split. exact Hproduct.
Qed.

(** C8: the code does not do what the claim says.  The checkout page
    asks for a session for seller 7.  The request is accepted, and the
    session request carries the price (in cents), a description, and
    the metadata [email], [productId] and [points]; there is no
    [sellerId] in it, and the webhook, reading the seller out of this
    metadata, finds 0. *)
Theorem checkout_request_drops_sellerId :
  let body := mkBody (Some "ada@example.com") (Some "prod_35euro") (Some "7") in
  resp_status
    (POST NEXT_PUBLIC_APP_URL encodeURIComponent (fun _ => inl "cs_test_S5") (inl body))
  = 200%nat
  /\ exists params,
       outbound NEXT_PUBLIC_APP_URL encodeURIComponent body = Some params
       /\ unit_amount params = 3500
       /\ product_data_description params = "Purchase of Product 35 Euro for 20 points"
       /\ metadata params = {[ "email" := "ada@example.com";
                               "productId" := "prod_35euro";
                               "points" := "20" ]}
       /\ metadata params !! "sellerId" = None
       /\ sellerId_of (Stripe.mkSession "cs_test_S5" (Some (metadata params)) None JNull)
          = Js.Num 0.
Proof.
  split; [reflexivity|]. eexists. split; [reflexivity|]. repeat split.
Qed.

End CheckoutMetadata.

(** ** One row per session *)

Section OneRowPerSession.

Import Stripe Webhook.

(** The UNIQUE constraint on [stripe_session_id]. *)
Definition unique_sessions (d : Db) : Prop :=
  forall sid, (length (rows_for sid d) <= 1)%nat.

Lemma empty_db_unique : unique_sessions empty_db.
Proof. intros sid. simpl. lia. Qed.

Lemma rows_for_on_conflict_other excluded rows sid :
  sid <> pe_stripe_session_id excluded ->
  List.filter (fun row => String.eqb (pe_stripe_session_id row) sid)
    (Exec.on_conflict excluded rows)
  = List.filter (fun row => String.eqb (pe_stripe_session_id row) sid) rows.
Proof.
  intros Hother.
  assert (Hex : String.eqb (pe_stripe_session_id excluded) sid = false)
    by (apply String.eqb_neq; congruence).
  induction rows as [|r rows IH]; simpl.
  - rewrite Hex. reflexivity.
  - destruct (String.eqb (pe_stripe_session_id r) (pe_stripe_session_id excluded)) eqn:Hr; simpl.
    + apply String.eqb_eq in Hr. rewrite Hr, Hex. reflexivity.
    + rewrite IH. reflexivity.
Qed.

Lemma on_conflict_unique excluded d :
  unique_sessions d ->
  unique_sessions (Exec.set_purchase_events (Exec.on_conflict excluded (purchase_events d)) d).
Proof.
  intros Hd sid. specialize (Hd sid). unfold rows_for in *.
  cbn [purchase_events Exec.set_purchase_events].
  destruct (String.eqb sid (pe_stripe_session_id excluded)) eqn:Hsid.
  - apply String.eqb_eq in Hsid. subst sid. rewrite rows_for_on_conflict.
    destruct (List.filter _ (purchase_events d)) as [|row others]; simpl in *; lia.
  - apply String.eqb_neq in Hsid. rewrite rows_for_on_conflict_other by assumption.
    exact Hd.
Qed.

Lemma same_rows_unique d d' :
  purchase_events d' = purchase_events d -> unique_sessions d -> unique_sessions d'.
Proof. intros Hrows Hd sid. unfold rows_for. rewrite Hrows. apply Hd. Qed.

Lemma statement_unique now stmt d :
  unique_sessions d -> unique_sessions (fst (Exec.statement now stmt d)).
Proof.
  intros Hd. destruct stmt as [data | customer points | data]; cbn [Exec.statement].
  - unfold Exec.purchase_event_upsert.
    destruct (Exec.parameters data) as [e|[[stored seller] points]]; [exact Hd|].
    destruct seller as [seller|]; [|apply (same_rows_unique d); [reflexivity | exact Hd]].
    apply (on_conflict_unique _ (Exec.next_id d)).
    apply (same_rows_unique d); [reflexivity | exact Hd].
  - apply (same_rows_unique d); [apply user_points_upsert_purchase_events | exact Hd].
  - unfold Exec.cancellation_insert.
    destruct (Exec.cancellation_parameters data) as [e|stored]; [exact Hd|].
    destruct (Exec.has_session _ _) eqn:Hfree;
      [apply (same_rows_unique d); [reflexivity | exact Hd]|].
    cbn [fst]. rewrite <- on_conflict_fresh by exact Hfree.
    apply (on_conflict_unique _ (Exec.next_id d)).
    apply (same_rows_unique d); [reflexivity | exact Hd].
Qed.

Lemma after_unique stmt w :
  unique_sessions (db w) -> unique_sessions (db (after stmt w)).
Proof.
  intros Hw. unfold after, sql. destruct (outages w) as [|[] rest]; try exact Hw;
    pose proof (statement_unique (clock w) stmt (db w) Hw) as H;
    destruct (Exec.statement (clock w) stmt (db w)); exact H.
Qed.

(** The invariant of the data model: at most one row per
    [externalSessionId], whatever notifications arrive. *)
Lemma process_unique event w :
  unique_sessions (db w) -> unique_sessions (db (snd (process event w))).
Proof.
  intros Hw. handle_paths event; cbn [fst snd]; repeat apply after_unique; exact Hw.
Qed.

Lemma deliver_unique events : forall w,
  unique_sessions (db w) -> unique_sessions (db (deliver events w)).
Proof.
  induction events as [|event events IH]; intros w Hw; [exact Hw|].
  cbn [deliver]. apply IH, process_unique, Hw.
Qed.

End OneRowPerSession.

(** ** What a notification can do to the balances *)

Section Balances.

Import Stripe Webhook.

(** The balance statement leaves the other customers alone; when it
    changes a balance, it is the balance kept under the email as the
    column stores it, and it adds the points. *)
Lemma user_points_upsert_step now customer points d c :
  totalPoints c (fst (Exec.user_points_upsert now customer points d)) = totalPoints c d
  \/ (Pg.varchar 255 customer = inr c
      /\ totalPoints c (fst (Exec.user_points_upsert now customer points d))
         = totalPoints c d + points).
Proof.
  unfold Exec.user_points_upsert, mbind, error_bind.
  destruct (Pg.bind_text customer) as [e|customer'] eqn:Htext; [left; reflexivity|].
  apply bind_text_inr in Htext as [-> _].
  destruct (Pg.integer (Some (Js.Num points))); [left; reflexivity|].
  destruct (Pg.varchar 255 customer) as [e|stored] eqn:Hstored; [left; reflexivity|].
  unfold totalPoints.
  destruct (user_points d !! stored) as [row|] eqn:Hrow;
    [destruct (Pg.int4 (total_points row + points)); [|left; reflexivity]|];
    cbn [fst user_points Exec.set_user_points];
    (destruct (String.eqb stored c) eqn:Hc;
     [ apply String.eqb_eq in Hc; subst c; right; split; [reflexivity|];
       rewrite lookup_insert_eq, Hrow; cbn [total_points]; lia
     | apply String.eqb_neq in Hc; left; rewrite lookup_insert_ne by assumption;
       reflexivity ]).
Qed.

Lemma after_balance_step customer points w c :
  totalPoints c (db (after (upsert_user_points customer points) w)) = totalPoints c (db w)
  \/ (Pg.varchar 255 customer = inr c
      /\ totalPoints c (db (after (upsert_user_points customer points) w))
         = totalPoints c (db w) + points).
Proof.
  pose proof (user_points_upsert_step (clock w) customer points (db w) c) as H.
  unfold after, sql. destruct (outages w) as [|[] rest]; [|left; reflexivity|].
  all: cbn [Exec.statement];
    destruct (Exec.user_points_upsert (clock w) customer points (db w)); exact H.
Qed.

(** X1: whatever notification arrives and whatever the storage does, no
    balance goes down; and the only change a notification can make to a
    balance is to add the points of the session's product to the
    balance kept under the session's email as the column stores it
    (the email itself, unless it has more than 255 characters). *)
Theorem notification_only_adds_product_points (event : Event) (w : World) (c : string) :
  totalPoints c (db (snd (process event w))) = totalPoints c (db w)
  \/ exists session customer pid product,
       event = checkout_session_completed session
       /\ Js.present (customer_of session) = Some customer
       /\ Pg.varchar 255 customer = inr c
       /\ Js.present (metadata session "productId") = Some pid
       /\ getProductById pid = Some product
       /\ 0 < p_points product
       /\ totalPoints c (db (snd (process event w))) = totalPoints c (db w) + p_points product.
Proof.
  unfold customer_of.
  handle_paths event; cbn [fst snd];
    try (left; unfold totalPoints; rewrite after_ledger_user_points; reflexivity);
    try (left; reflexivity).
  apply Z.ltb_lt in Hpoints.
  match goal with
  | |- context [after (upsert_user_points ?cust ?pts) ?w1] =>
      destruct (after_balance_step cust pts w1 c) as [Hsame | [Hstored Hadd]]
  end.
  - left. rewrite Hsame. unfold totalPoints. rewrite after_ledger_user_points. reflexivity.
  - right. exists session, customer, pid, product. repeat split; try assumption.
    rewrite Hadd. unfold totalPoints. rewrite after_ledger_user_points. reflexivity.
Qed.

End Balances.

(** ** The rows a completed checkout leaves *)

Section CompletedCheckout.

Import Stripe Webhook.

(** X2: the first notification of a completed checkout of a known
    product, with the server reachable and a recordable session (texts
    without U+0000 that fit the columns, a seller id that is an
    integer, a payment intent the server can store as JSON), leaves
    exactly one row for the session: the customer, the product, the
    seller read from the metadata, the status PAYMENT_SUCCESS, the
    points and the price of the catalogue, the id from the sequence and
    the time of the statement. *)
Theorem first_delivery_recorded session customer pid product seller (w : World) :
  Js.present (customer_of session) = Some customer ->
  Js.present (metadata session "productId") = Some pid ->
  getProductById pid = Some product ->
  sellerId_of session = Js.Num seller ->
  head (outages w) <> Some true ->
  recordable session = true ->
  Pg.jsonb (cs_payment_intent session) = true ->
  rows_for (cs_id session) (db w) = [] ->
  rows_for (cs_id session) (db (snd (process (checkout_session_completed session) w)))
  = [ {| pe_id := purchase_events_id_seq (db w);
         pe_timestamp := clock w;
         pe_email := customer;
         pe_product_id := Some pid;
         pe_stripe_session_id := cs_id session;
         pe_status := "PAYMENT_SUCCESS";
         pe_seller_id := seller;
         pe_points_awarded := Some (p_points product);
         pe_details := Some (JObj [("product_name", JStr (p_name product));
                                   ("price_paid", JNum (p_price product));
                                   ("payment_intent", cs_payment_intent session)]) |} ].
Proof.
  intros Hc Hp Hprod Hseller Hup Hfits Hintent Hfresh.
  pose proof (payment_success_storable session customer pid product Hc Hp Hprod Hfits Hintent)
    as Hstorable.
  unfold customer_of in Hc. unfold sellerId_of in Hseller. unfold process, handle.
  rewrite Hc, Hp, Hprod.
  destruct (0 <? p_points product); run_helpers; cbn [fst snd];
    unfold rows_for; rewrite ?after_balance_purchase_events; fold (rows_for (cs_id session)).
  all: match goal with
       | |- context [after (upsert_purchase_event ?data) ?w0] =>
           destruct (accepted_rows_for data w0 Hup) as (z & Hseller' & Hrows);
             [exact Hstorable|]
       end;
    cbn [stripeSessionId seller_id] in Hseller', Hrows;
    rewrite Hseller in Hseller'; injection Hseller' as <-;
    etransitivity; [exact Hrows|]; rewrite Hfresh; reflexivity.
Qed.


End CompletedCheckout.

(** ** The cancellation log *)

Section CancellationLog.

Import LogCancellation.

Variable expectedSecret : option string.
Variable toISOString : nat -> string.

(** The row the cancellation log inserts, from the parameters as the
    server took them. *)
Definition cancellation_row (id now : nat) (data : CancellationData) : PurchaseEvent :=
  {| pe_id := id;
     pe_timestamp := now;
     pe_email := c_email data;
     pe_product_id := Some (c_product_id data);
     pe_stripe_session_id := c_stripe_session_id data;
     pe_status := c_status data;
     pe_seller_id := 0;
     pe_points_awarded := Some (c_points_awarded data);
     pe_details := Some (c_details data) |}.

Lemma cancellation_insert_effect now data d :
  user_points (fst (Exec.cancellation_insert now data d)) = user_points d
  /\ match snd (Exec.cancellation_insert now data d) with
     | None =>
         exists stored,
           Exec.cancellation_parameters data = inr stored
           /\ Exec.has_session (c_stripe_session_id stored) (purchase_events d) = false
           /\ purchase_events (fst (Exec.cancellation_insert now data d))
              = (purchase_events d
                 ++ [cancellation_row (purchase_events_id_seq d) now stored])%list
     | Some _ =>
         purchase_events (fst (Exec.cancellation_insert now data d)) = purchase_events d
     end.
Proof.
  unfold Exec.cancellation_insert.
  destruct (Exec.cancellation_parameters data) as [e|stored]; [split; reflexivity|].
  cbn [purchase_events Exec.next_id].
  destruct (Exec.has_session _ _) eqn:Hfree; split; try reflexivity.
  exists stored. split; [reflexivity|]. split; [exact Hfree | reflexivity].
Qed.

Lemma sql_cancellation_effect data w :
  user_points (db (after (insert_cancellation data) w)) = user_points (db w)
  /\ match fst (sql (insert_cancellation data) w) with
     | Ok _ =>
         exists stored,
           Exec.cancellation_parameters data = inr stored
           /\ Exec.has_session (c_stripe_session_id stored) (purchase_events (db w)) = false
           /\ purchase_events (db (after (insert_cancellation data) w))
              = (purchase_events (db w)
                 ++ [cancellation_row (purchase_events_id_seq (db w)) (clock w) stored])%list
     | Throw _ =>
         purchase_events (db (after (insert_cancellation data) w)) = purchase_events (db w)
     end.
Proof.
  pose proof (cancellation_insert_effect (clock w) data (db w)) as H.
  unfold after, sql. destruct (outages w) as [|[] rest]; [|split; reflexivity|].
  all: cbn [Exec.statement];
    destruct (Exec.cancellation_insert (clock w) data (db w)) as [d [e|]]; exact H.
Qed.

(** The statement a request leads to, when it leads to one. *)
Definition cancellation_of (req : Request) (w : World) : option CancellationData :=
  if negb (Js.truthy expectedSecret)
     || negb (bool_decide (req_admin_api_secret req = expectedSecret))
  then None
  else
    match req_json req with
    | inr _ => None
    | inl body =>
        match Js.present (body_email body),
              Js.present (body_productId body),
              Js.present (body_stripeSessionId body) with
        | Some email, Some productId, Some stripeSessionId =>
            match getProductById productId with
            | None => None
            | Some product =>
                Some {| c_email := email;
                        c_product_id := productId;
                        c_points_awarded := 0;
                        c_stripe_session_id := stripeSessionId;
                        c_status := "cancelled_by_user";
                        c_details := Js.obj
                          [("product_name", Some (JStr (p_name product)));
                           ("price_paid", Some (JNum (p_price product)));
                           ("cancelled_at", Some (JStr (toISOString (clock w))));
                           ("reason", Some (JStr "User clicked cancel on Stripe page"))] |}
            end
        | _, _, _ => None
        end
    end.

(** [POST] sends at most one statement; it answers 200 when the
    statement is accepted, and 500 when it is not. *)
Lemma cancellation_run req w :
  match cancellation_of req w with
  | None =>
      snd (POST expectedSecret toISOString req w) = w
      /\ answered (POST expectedSecret toISOString req w) <> Some 200%nat
  | Some data =>
      snd (POST expectedSecret toISOString req w) = after (insert_cancellation data) w
      /\ answered (POST expectedSecret toISOString req w)
         = match fst (sql (insert_cancellation data) w) with
           | Ok _ => Some 200%nat
           | Throw _ => Some 500%nat
           end
  end.
Proof.
  unfold cancellation_of, POST.
  destruct (negb (Js.truthy expectedSecret) || _); [split; [reflexivity | discriminate]|].
  destruct (req_json req) as [body|message]; [|split; [reflexivity | discriminate]].
  destruct (Js.present (body_email body)) as [email|];
    [|split; [reflexivity | discriminate]].
  destruct (Js.present (body_productId body)) as [pid|];
    [|split; [reflexivity | discriminate]].
  destruct (Js.present (body_stripeSessionId body)) as [sid|];
    [|split; [reflexivity | discriminate]].
  destruct (getProductById pid) as [product|]; [|split; [reflexivity | discriminate]].
  unfold try_catch, bind, ret, after, answered.
  match goal with
  | |- context [sql (insert_cancellation ?data) w] =>
      destruct (sql (insert_cancellation data) w) as [[[]|e] w']
  end; split; reflexivity.
Qed.

(** X4: the cancellation log never touches a balance and never changes
    or removes a row of the ledger: either the ledger is as it was, or
    one row was added at its end, for a session that had no row, with
    the status cancelled_by_user, 0 points and seller 0.  The answer is
    200 exactly when the row was added. *)
Theorem cancellation_adds_one_row_or_nothing (req : Request) (w : World) :
  let run := POST expectedSecret toISOString req w in
  user_points (db (snd run)) = user_points (db w)
  /\ ((purchase_events (db (snd run)) = purchase_events (db w)
       /\ answered run <> Some 200%nat)
      \/ exists row,
           purchase_events (db (snd run)) = (purchase_events (db w) ++ [row])%list
           /\ Exec.has_session (pe_stripe_session_id row) (purchase_events (db w)) = false
           /\ pe_status row = "cancelled_by_user"
           /\ pe_points_awarded row = Some 0
           /\ pe_seller_id row = 0
           /\ answered run = Some 200%nat).
Proof.
  cbv zeta. pose proof (cancellation_run req w) as Hrun.
  destruct (cancellation_of req w) as [data|] eqn:Hdata.
  - destruct Hrun as [-> ->].
    destruct (sql_cancellation_effect data w) as [Hbalances Hledger].
    split; [exact Hbalances|].
    assert (Hshape : c_status data = "cancelled_by_user" /\ c_points_awarded data = 0).
    { unfold cancellation_of in Hdata.
      repeat match type of Hdata with
             | (if ?b then _ else _) = _ => destruct b
             | match ?x with _ => _ end = _ => destruct x
             end; try discriminate.
      injection Hdata as <-. split; reflexivity. }
    destruct Hshape as [Hstatus Hpoints].
    destruct (fst (sql (insert_cancellation data) w)).
    + right. destruct Hledger as (stored & Hparameters & Hfree & Hrows).
      destruct (cancellation_parameters_inr _ _ Hparameters)
        as (_ & _ & _ & Hstored & Hzero & _).
      rewrite Hstatus in Hstored. apply varchar_status in Hstored; [|reflexivity].
      eexists. split; [exact Hrows|].
      cbn [cancellation_row pe_stripe_session_id pe_status pe_points_awarded pe_seller_id].
      rewrite Hstored, Hzero, Hpoints. repeat split. exact Hfree.
    + left. split; [exact Hledger | discriminate].
  - destruct Hrun as [-> Hanswer]. split; [reflexivity|]. left. split; [reflexivity | exact Hanswer].
Qed.

(** X5: a request whose X-Admin-API-Secret header is not the configured
    secret, or any request while no secret is configured, is answered
    with 401 and reaches neither the catalogue nor the database. *)
Theorem cancellation_needs_the_secret (req : Request) (w : World) :
  Js.truthy expectedSecret = false \/ req_admin_api_secret req <> expectedSecret ->
  exists body, POST expectedSecret toISOString req w = (Ok (mkResponse body 401), w).
Proof.
  intros Hdenied. unfold POST.
  assert (Hguard : negb (Js.truthy expectedSecret)
                   || negb (bool_decide (req_admin_api_secret req = expectedSecret)) = true).
  { destruct Hdenied as [-> | Hne]; [reflexivity|].
    rewrite (bool_decide_eq_false_2 _ Hne). apply orb_true_r. }
  rewrite Hguard. eexists. reflexivity.
Qed.

(** X6: an authorised, well-formed cancellation for a session that
    already has a row (one the webhook recorded, or an earlier
    cancellation) is answered with 500, whatever the storage does, and
    the ledger keeps its rows: the log cannot overwrite.  The row is
    looked up under the session id as the column stores it, which is
    the session id itself unless it has more than 255 characters. *)
Theorem cancellation_of_recorded_session_refused
    (req : Request) (w : World) body email pid sid stored product :
  Js.truthy expectedSecret = true ->
  req_admin_api_secret req = expectedSecret ->
  req_json req = inl body ->
  Js.present (body_email body) = Some email ->
  Js.present (body_productId body) = Some pid ->
  Js.present (body_stripeSessionId body) = Some sid ->
  getProductById pid = Some product ->
  Pg.varchar 255 sid = inr stored ->
  Exec.has_session stored (purchase_events (db w)) = true ->
  answered (POST expectedSecret toISOString req w) = Some 500%nat
  /\ purchase_events (db (snd (POST expectedSecret toISOString req w)))
     = purchase_events (db w).
Proof.
  intros Hsecret Hheader Hbody Hemail Hpid Hsid Hproduct Hstored Htaken.
  pose proof (cancellation_run req w) as Hrun. unfold cancellation_of in Hrun.
  rewrite Hsecret, (bool_decide_eq_true_2 _ Hheader), Hbody, Hemail, Hpid, Hsid, Hproduct
    in Hrun.
  cbn [negb orb] in Hrun. destruct Hrun as [-> ->].
  match goal with
  | |- context [sql (insert_cancellation ?data) w] =>
      destruct (sql_cancellation_effect data w) as [_ Hledger];
      destruct (fst (sql (insert_cancellation data) w))
  end.
  - destruct Hledger as (taken & Hparameters & Hfree & _).
    destruct (cancellation_parameters_inr _ _ Hparameters) as (_ & _ & Hkey & _).
    cbn [c_stripe_session_id] in Hkey. congruence.
  - split; [reflexivity | exact Hledger].
Qed.

End CancellationLog.

(** ** Invariants of the ledger *)

Section LedgerInvariants.

Import Stripe.

Variable constructEvent : string -> string -> string -> Event + string.
Variable webhookSecret : option string.
Variable expectedSecret : option string.
Variable toISOString : nat -> string.

(** The world after a request to the webhook or to the cancellation
    log: unchanged, or after the handling of a verified event, or after
    the statement of the cancellation log. *)
Lemma run_world op w :
  snd (run constructEvent webhookSecret expectedSecret toISOString op w) = w
  \/ (exists event,
        snd (run constructEvent webhookSecret expectedSecret toISOString op w)
        = snd (Webhook.process event w))
  \/ (exists email data,
        (exists o, Js.present o = Some email) /\ c_email data = email
        /\ snd (run constructEvent webhookSecret expectedSecret toISOString op w)
           = after (insert_cancellation data) w).
Proof.
  destruct op as [req|req]; cbn [run].
  - unfold Webhook.POST.
    destruct (Js.present (Webhook.req_stripe_signature req)) as [sig|]; [|left; reflexivity].
    destruct (Js.present webhookSecret) as [secret|]; [|left; reflexivity].
    destruct (constructEvent (Webhook.req_text req) sig secret) as [event|message];
      [right; left; exists event; reflexivity | left; reflexivity].
  - pose proof (cancellation_run expectedSecret toISOString req w) as Hrun.
    destruct (cancellation_of expectedSecret toISOString req w) as [data|] eqn:Hdata;
      destruct Hrun as [Hworld _]; [|left; exact Hworld].
    right. right. exists (c_email data), data. split; [|split; [reflexivity | exact Hworld]].
    unfold cancellation_of in Hdata.
    destruct (negb (Js.truthy expectedSecret) || _); [discriminate|].
    destruct (LogCancellation.req_json req) as [body|]; [|discriminate].
    destruct (Js.present (LogCancellation.body_email body)) as [email|] eqn:Hemail;
      [|discriminate].
    destruct (Js.present (LogCancellation.body_productId body)); [|discriminate].
    destruct (Js.present (LogCancellation.body_stripeSessionId body)); [|discriminate].
    destruct (getProductById _); [|discriminate].
    injection Hdata as <-. exists (LogCancellation.body_email body). exact Hemail.
Qed.

(** The requests of a list, served one after the other. *)
Fixpoint serve (ops : list Operation) (w : World) : World :=
  match ops with
  | [] => w
  | op :: rest =>
      serve rest (snd (run constructEvent webhookSecret expectedSecret toISOString op w))
  end.

Lemma run_unique (op : Operation) (w : World) :
  unique_sessions (db w) ->
  unique_sessions (db (snd (run constructEvent webhookSecret expectedSecret toISOString op w))).
Proof.
  intros Hw.
  destruct (run_world op w) as [-> | [[event ->] | (email & data & _ & _ & ->)]].
  - exact Hw.
  - apply process_unique, Hw.
  - apply after_unique, Hw.
Qed.

Lemma serve_unique ops : forall w,
  unique_sessions (db w) -> unique_sessions (db (serve ops w)).
Proof.
  induction ops as [|op ops IH]; intros w Hw; [exact Hw|].
  cbn [serve]. apply IH, run_unique, Hw.
Qed.

(** X7: at most one row per session id.  Starting from the empty
    tables, whatever requests reach the webhook and the cancellation
    log, in whatever order, and whatever the storage does in between,
    the ledger never holds two rows for the same session id. *)
Theorem one_row_per_session (ops : list Operation) (now : nat) (faults : list bool)
    (sid : string) :
  (length (rows_for sid (db (serve ops (mkWorld empty_db now faults)))) <= 1)%nat.
Proof.
  apply (serve_unique ops (mkWorld empty_db now faults)). exact empty_db_unique.
Qed.

(** No row of the ledger and no row of the balances has an empty
    [email]. *)
Definition emails_present (d : Db) : Prop :=
  (forall row, In row (purchase_events d) -> pe_email row <> EmptyString)
  /\ (forall c, is_Some (user_points d !! c) -> c <> EmptyString).

Lemma present_not_empty (o : option string) (s : string) :
  Js.present o = Some s -> s <> EmptyString.
Proof.
  unfold Js.present, Js.truthy. destruct o as [[|c rest]|]; try discriminate.
  intros [= <-]. discriminate.
Qed.

Lemma or_else_not_empty (o : option string) (s : string) :
  s <> EmptyString -> Js.or_else o s <> EmptyString.
Proof.
  intros Hs. unfold Js.or_else. destruct (Js.present o) as [s'|] eqn:Ho; [|exact Hs].
  exact (present_not_empty _ _ Ho).
Qed.

Lemma emailForFailedPI_not_empty paymentIntentFailed :
  Webhook.emailForFailedPI paymentIntentFailed <> EmptyString.
Proof.
  unfold Webhook.emailForFailedPI.
  destruct (Js.truthy _); [apply or_else_not_empty; discriminate|].
  destruct (pi_customer paymentIntentFailed);
    try discriminate; apply or_else_not_empty; discriminate.
Qed.

Lemma on_conflict_emails excluded rows :
  pe_email excluded <> EmptyString ->
  (forall row, In row rows -> pe_email row <> EmptyString) ->
  forall row, In row (Exec.on_conflict excluded rows) -> pe_email row <> EmptyString.
Proof.
  intros Hex. induction rows as [|r rows IH]; intros Hrows row; simpl.
  - intros [<-|[]]. exact Hex.
  - destruct (String.eqb (pe_stripe_session_id r) (pe_stripe_session_id excluded)).
    + intros [<-|Hin]; [apply (Hrows r); left; reflexivity | apply Hrows; right; exact Hin].
    + intros [<-|Hin]; [apply Hrows; left; reflexivity|].
      apply IH; [|exact Hin]. intros row' Hin'. apply Hrows. right. exact Hin'.
Qed.

Lemma after_upsert_emails data w :
  email data <> EmptyString ->
  emails_present (db w) -> emails_present (db (after (upsert_purchase_event data) w)).
Proof.
  intros Hdata [Hledger Hbalances]. destruct (sql_upsert_effect data w) as [Hsame Heffect].
  unfold emails_present, after. rewrite Hsame. split; [|exact Hbalances].
  destruct (fst (sql (upsert_purchase_event data) w)).
  - destruct Heffect as (stored & seller & Hparameters & ->).
    destruct (parameters_inr _ _ _ _ Hparameters) as (Hemail & _).
    apply on_conflict_emails; [|exact Hledger].
    exact (varchar_not_empty _ _ _ Hemail Hdata).
  - rewrite Heffect. exact Hledger.
Qed.

(** The balance statement adds at most the row of the stored email. *)
Lemma user_points_upsert_keys now customer points d c :
  is_Some (user_points (fst (Exec.user_points_upsert now customer points d)) !! c) ->
  is_Some (user_points d !! c) \/ Pg.varchar 255 customer = inr c.
Proof.
  unfold Exec.user_points_upsert, mbind, error_bind.
  destruct (Pg.bind_text customer) as [e|customer'] eqn:Htext; [left; assumption|].
  apply bind_text_inr in Htext as [-> _].
  destruct (Pg.integer (Some (Js.Num points))); [left; assumption|].
  destruct (Pg.varchar 255 customer) as [e|stored] eqn:Hstored; [left; assumption|].
  destruct (user_points d !! stored) as [row|] eqn:Hrow;
    [destruct (Pg.int4 (total_points row + points)); [|left; assumption]|];
    cbn [fst user_points Exec.set_user_points];
    (destruct (String.eqb stored c) eqn:Hc;
     [ apply String.eqb_eq in Hc; subst c; right; reflexivity
     | apply String.eqb_neq in Hc; rewrite lookup_insert_ne by assumption; left;
       assumption ]).
Qed.

Lemma after_balance_emails customer points w :
  customer <> EmptyString ->
  emails_present (db w) -> emails_present (db (after (upsert_user_points customer points) w)).
Proof.
  intros Hcustomer [Hledger Hbalances]. unfold emails_present.
  rewrite after_balance_purchase_events. split; [exact Hledger|].
  intros c Hc.
  assert (Hstep : is_Some (user_points (db w) !! c) \/ Pg.varchar 255 customer = inr c).
  { pose proof (user_points_upsert_keys (clock w) customer points (db w) c) as H.
    unfold after, sql in Hc. destruct (outages w) as [|[] rest]; [|left; exact Hc|].
    all: cbn [Exec.statement] in Hc;
      destruct (Exec.user_points_upsert (clock w) customer points (db w));
      exact (H Hc). }
  destruct Hstep as [Hold | Hstored]; [exact (Hbalances c Hold)|].
  exact (varchar_not_empty _ _ _ Hstored Hcustomer).
Qed.

Lemma process_emails event w :
  emails_present (db w) -> emails_present (db (snd (Webhook.process event w))).
Proof.
  intros Hw. handle_paths event; cbn [fst snd];
    try exact Hw;
    repeat first [ apply after_balance_emails | apply after_upsert_emails ];
    try exact Hw; cbn [email];
    try exact (present_not_empty _ _ Hcustomer);
    try (apply or_else_not_empty; discriminate).
  apply emailForFailedPI_not_empty.
Qed.

Lemma run_emails (op : Operation) (w : World) :
  emails_present (db w) ->
  emails_present
    (db (snd (run constructEvent webhookSecret expectedSecret toISOString op w))).
Proof.
  intros Hw.
  destruct (run_world op w) as [-> | [[event ->] | (email & data & [o Ho] & Hemail & ->)]].
  - exact Hw.
  - apply process_emails, Hw.
  - destruct Hw as [Hledger Hbalances].
    destruct (sql_cancellation_effect data w) as [Hsame Heffect].
    unfold emails_present. rewrite Hsame. split; [|exact Hbalances].
    unfold after in *.
    destruct (fst (sql (insert_cancellation data) w)).
    + destruct Heffect as (stored & Hparameters & _ & ->). intros row Hin.
      destruct (cancellation_parameters_inr _ _ Hparameters) as (Hstored & _).
      apply in_app_or in Hin as [Hold | [<- | []]]; [exact (Hledger row Hold)|].
      cbn [cancellation_row pe_email].
      apply (varchar_not_empty _ _ _ Hstored). rewrite Hemail.
      exact (present_not_empty _ _ Ho).
    + rewrite Heffect. exact Hledger.
Qed.

Lemma serve_emails ops : forall w,
  emails_present (db w) -> emails_present (db (serve ops w)).
Proof.
  induction ops as [|op ops IH]; intros w Hw; [exact Hw|].
  cbn [serve]. apply IH, run_emails, Hw.
Qed.

(** X8: every row has a customer.  Starting from the empty tables,
    whatever requests reach the webhook and the cancellation log, no
    row of the ledger and no row of the balances ever has an empty
    [email]: the handlers record the email they resolved, or
    unknown@example.com, never overwrite the email of a row, and award
    points only to an email they resolved. *)
Theorem recorded_email_never_empty (ops : list Operation) (now : nat) (faults : list bool) :
  emails_present (db (serve ops (mkWorld empty_db now faults))).
Proof.
  apply (serve_emails ops (mkWorld empty_db now faults)). split.
  - intros row [].
  - intros c [row Hrow]. cbn in Hrow. rewrite lookup_empty in Hrow. discriminate.
Qed.

End LedgerInvariants.

(** ** The catalogue and the checkout session *)

Section Checkout.

Import CheckoutSessions.

Variable NEXT_PUBLIC_APP_URL : option string.
Variable encodeURIComponent : string -> string.
Variable create : SessionCreateParams -> string + string.

Lemma getProductById_in_catalogue (id : string) (product : Product) :
  getProductById id = Some product -> In product products /\ p_id product = id.
Proof.
  unfold getProductById, products. cbn [List.find p_id].
  destruct (String.eqb "prod_20euro" id) eqn:H20;
    [|destruct (String.eqb "prod_35euro" id) eqn:H35;
      [|destruct (String.eqb "prod_50euro" id) eqn:H50]];
    intros H; try discriminate; injection H as <-;
    (split; [simpl; tauto | apply String.eqb_eq; assumption]).
Qed.

(** X9: [getProductById] finds exactly the products of the catalogue:
    it answers a product when, and only when, that product is in the
    catalogue under the id asked for; so every product is found by its
    own id, and an id the catalogue does not have gives [undefined]. *)
Theorem getProductById_finds_the_catalogue (id : string) (product : Product) :
  getProductById id = Some product <-> In product products /\ p_id product = id.
Proof.
  split; [apply getProductById_in_catalogue|].
  intros [Hin <-]. unfold products in Hin. simpl in Hin.
  destruct Hin as [<- | [<- | [<- | []]]]; reflexivity.
Qed.

(** X10: whatever the request body says, a session request sent to the
    provider is for a product of the catalogue, at the catalogue's price
    (in cents, once, in euros) and with the catalogue's points in the
    metadata; the customer is the email of the body. *)
Theorem session_request_from_catalogue (body : RequestBody) (params : SessionCreateParams) :
  outbound NEXT_PUBLIC_APP_URL encodeURIComponent body = Some params ->
  exists product,
    In product products
    /\ metadata params !! "productId" = Some (p_id product)
    /\ metadata params !! "points" = Some (Js.toString (p_points product))
    /\ metadata params !! "email" = Js.present (body_email body)
    /\ Some (customer_email params) = Js.present (body_email body)
    /\ product_data_name params = p_name product
    /\ unit_amount params = p_price product * 100
    /\ quantity params = 1
    /\ currency params = "eur".
Proof.
  unfold outbound.
  destruct (Js.present (body_email body)) as [customer|]; [|discriminate].
  destruct (Js.present (body_productId body)) as [pid|]; [|discriminate].
  destruct (getProductById pid) as [product|] eqn:Hproduct; [|discriminate].
  apply getProductById_in_catalogue in Hproduct as [Hin <-].
  intros [= <-]. exists product. repeat split; try exact Hin.
Qed.

(** X11: the route answers 200 exactly when a session request was
    sent and the provider answered it with a session id that is not
    empty; the body of the answer is then that id. *)
Theorem checkout_answers_200_with_session (body : RequestBody) :
  let response := POST NEXT_PUBLIC_APP_URL encodeURIComponent create (inl body) in
  (resp_status response = 200%nat
   <-> exists params id,
         outbound NEXT_PUBLIC_APP_URL encodeURIComponent body = Some params
         /\ create params = inl id /\ id <> EmptyString)
  /\ forall params id,
       outbound NEXT_PUBLIC_APP_URL encodeURIComponent body = Some params ->
       create params = inl id -> id <> EmptyString ->
       resp_body response = JObj [("sessionId", JStr id)].
Proof.
  cbv zeta. unfold POST, outbound.
  destruct (Js.present (body_email body)) as [customer|];
    [|split; [split; [discriminate | intros (? & ? & ? & _); discriminate]
             | intros; discriminate]].
  destruct (Js.present (body_productId body)) as [pid|];
    [|split; [split; [discriminate | intros (? & ? & ? & _); discriminate]
             | intros; discriminate]].
  destruct (getProductById pid) as [product|];
    [|split; [split; [discriminate | intros (? & ? & ? & _); discriminate]
             | intros; discriminate]].
  destruct (create (sessionCreateParams NEXT_PUBLIC_APP_URL encodeURIComponent
                      customer pid product)) as [id|message] eqn:Hcreate.
  - destruct id as [|c rest].
    + split; [split; [discriminate|]|].
      * intros (params & id & [= <-] & Hid & Hne). congruence.
      * intros params id [= <-] Hid Hne. congruence.
    + split; [split; [intros _; eexists _, _; repeat split; [exact Hcreate | discriminate]
                     | reflexivity]|].
      intros params id [= <-] Hid _. rewrite Hcreate in Hid. injection Hid as <-. reflexivity.
  - split; [split; [discriminate|]|].
    + intros (params & id & [= <-] & Hid & _). congruence.
    + intros params id [= <-] Hid _. congruence.
Qed.

End Checkout.

(** ** The read routes of the administrator *)

Section AdminRoutes.

Import Admin.

Variable NODE_ENV : option string.
Variable ADMIN_API_SECRET : option string.
Variable stack : Pg.error -> string.

(** The status a route that answers rows replies with. *)
Definition replied (run : completion Reply * World) : option nat :=
  match fst run with
  | Ok r => Some (reply_status r)
  | Throw _ => None
  end.

(** The request is let in: the server runs in development, or the
    request carries the secret. *)
Definition admitted (req : Request) : Prop :=
  NODE_ENV = Some "development" \/ secret req = Some (ADMIN_SECRET ADMIN_API_SECRET).

Lemma unauthorized_admitted req :
  admitted req -> unauthorized NODE_ENV ADMIN_API_SECRET req = None.
Proof.
  unfold admitted, unauthorized. intros [Hdev | Hsecret].
  - rewrite Hdev. reflexivity.
  - rewrite (bool_decide_eq_true_2 _ Hsecret). cbn [negb]. rewrite !andb_false_r. reflexivity.
Qed.

Lemma unauthorized_refused req :
  ~ admitted req ->
  exists body, unauthorized NODE_ENV ADMIN_API_SECRET req = Some (mkResponse body 401).
Proof.
  unfold admitted, unauthorized. intros Hdenied.
  assert (Hdev : NODE_ENV <> Some "development") by tauto.
  assert (Hsecret : secret req <> Some (ADMIN_SECRET ADMIN_API_SECRET)) by tauto.
  rewrite (bool_decide_eq_false_2 _ Hdev), (bool_decide_eq_false_2 _ Hsecret). cbn [negb andb].
  rewrite andb_true_r. destruct (bool_decide _); eexists; reflexivity.
Qed.

Lemma admitted_dec req : admitted req \/ ~ admitted req.
Proof.
  unfold admitted.
  destruct (decide (NODE_ENV = Some "development")); [left; left; assumption|].
  destruct (decide (secret req = Some (ADMIN_SECRET ADMIN_API_SECRET)));
    [left; right; assumption | right; tauto].
Qed.

Lemma sql_select_run {A} params (rows : Db -> A) w :
  sql_select params rows w
  = (if bool_decide (head (outages w) = Some true)
     then Throw Pg.connection_failure
     else if forallb Pg.text params
          then Ok (rows (db w))
          else Throw Pg.character_not_in_repertoire,
     mkWorld (db w) (S (clock w)) (tail (outages w))).
Proof.
  unfold sql_select. destruct (outages w) as [|[] rest]; reflexivity.
Qed.

(** X12: the three read routes answer 401 exactly when the server does
    not run in development and the request does not carry the secret
    (in the X-Admin-Secret header or, when the header is missing or
    empty, in the [secret] parameter), the secret being
    [ADMIN_API_SECRET], or your-admin-api-secret when that is not set. *)
Theorem read_routes_need_the_secret (req : Request) (w : World) :
  (answered (user_points_GET NODE_ENV ADMIN_API_SECRET stack req w) = Some 401%nat
   <-> ~ admitted req)
  /\ (replied (user_events_GET NODE_ENV ADMIN_API_SECRET stack req w) = Some 401%nat
      <-> ~ admitted req)
  /\ (replied (all_events_GET NODE_ENV ADMIN_API_SECRET stack req w) = Some 401%nat
      <-> ~ admitted req).
Proof.
  unfold user_points_GET, user_events_GET, all_events_GET.
  destruct (admitted_dec req) as [Hin | Hout].
  - rewrite (unauthorized_admitted req Hin).
    unfold try_catch, bind, ret, answered, replied.
    destruct (Js.present (query_email req)) as [email|];
      rewrite !sql_select_run;
      destruct (bool_decide (head (outages w) = Some true));
      cbn [forallb]; try destruct (Pg.text email);
      cbn [fst andb]; repeat split; try discriminate; try tauto;
      try (destruct (select_total_points email (db w)); discriminate).
  - destruct (unauthorized_refused req Hout) as [body ->].
    repeat split; try reflexivity; intros _; exact Hout.
Qed.

(** X13: the read routes read.  Whatever the request, the tables and
    the sequence are after the answer what they were before. *)
Theorem read_routes_leave_the_tables (req : Request) (w : World) :
  db (snd (user_points_GET NODE_ENV ADMIN_API_SECRET stack req w)) = db w
  /\ db (snd (user_events_GET NODE_ENV ADMIN_API_SECRET stack req w)) = db w
  /\ db (snd (all_events_GET NODE_ENV ADMIN_API_SECRET stack req w)) = db w.
Proof.
  unfold user_points_GET, user_events_GET, all_events_GET.
  destruct (unauthorized NODE_ENV ADMIN_API_SECRET req); [repeat split|].
  unfold try_catch, bind, ret.
  destruct (Js.present (query_email req)) as [email|];
    rewrite !sql_select_run;
    destruct (bool_decide (head (outages w) = Some true));
    cbn [forallb]; try destruct (Pg.text email); repeat split.
Qed.

(** The property [key] of a JSON object. *)
Definition property (key : string) (j : json) : option json :=
  match j with
  | JObj fields => snd <$> List.find (fun kv => String.eqb (fst kv) key) fields
  | _ => None
  end.

Lemma user_points_GET_admitted (req : Request) (w : World) (email : string) :
  admitted req ->
  Js.present (query_email req) = Some email ->
  Pg.text email = true ->
  head (outages w) <> Some true ->
  exists response,
    fst (user_points_GET NODE_ENV ADMIN_API_SECRET stack req w) = Ok response
    /\ resp_status response = 200%nat
    /\ property "total_points" (resp_body response) = Some (JNum (totalPoints email (db w))).
Proof.
  intros Hin Hemail Htext Hup. unfold user_points_GET.
  rewrite (unauthorized_admitted req Hin), Hemail.
  unfold try_catch, bind, ret. rewrite sql_select_run.
  rewrite (bool_decide_eq_false_2 _ Hup). cbn [forallb]. rewrite Htext. cbn [andb].
  unfold select_total_points, totalPoints.
  destruct (user_points (db w) !! email) as [row|]; eexists; repeat split.
Qed.

(** X14: for an admitted request that names a customer by an email
    without U+0000, with the server reachable, the points route answers
    200 with the customer's balance in [total_points]: the
    [total_points] of the customer's row, and 0 for a customer without a
    row. *)
Theorem points_route_reports_the_balance (req : Request) (w : World) (email : string) :
  admitted req ->
  Js.present (query_email req) = Some email ->
  Pg.text email = true ->
  head (outages w) <> Some true ->
  exists response,
    fst (user_points_GET NODE_ENV ADMIN_API_SECRET stack req w) = Ok response
    /\ resp_status response = 200%nat
    /\ property "total_points" (resp_body response) = Some (JNum (totalPoints email (db w))).
Proof. exact (user_points_GET_admitted req w email). Qed.


Lemma insert_by_timestamp_perm row sorted :
  Permutation (insert_by_timestamp row sorted) (row :: sorted).
Proof.
  induction sorted as [|first rest IH]; cbn [insert_by_timestamp]; [reflexivity|].
  destruct (pe_timestamp first <? pe_timestamp row)%nat; [reflexivity|].
  rewrite IH. apply perm_swap.
Qed.

Lemma order_by_timestamp_desc_perm rows :
  Permutation (order_by_timestamp_desc rows) rows.
Proof.
  unfold order_by_timestamp_desc.
  assert (H : forall sorted,
             Permutation (fold_left (fun sorted row => insert_by_timestamp row sorted)
                            rows sorted)
               (rows ++ sorted)).
  { induction rows as [|row rows IH]; intros sorted; cbn [fold_left]; [reflexivity|].
    rewrite IH, insert_by_timestamp_perm. simpl. symmetry. apply Permutation_middle. }
  rewrite H, app_nil_r. reflexivity.
Qed.

(** Newest first: no row comes before a row with a later timestamp. *)
Definition newest_first (result : list PurchaseEvent) : Prop :=
  StronglySorted (fun earlier later => (pe_timestamp later <= pe_timestamp earlier)%nat) result.

Lemma insert_by_timestamp_sorted row sorted :
  newest_first sorted -> newest_first (insert_by_timestamp row sorted).
Proof.
  unfold newest_first. induction sorted as [|first rest IH]; cbn [insert_by_timestamp].
  - intros _. constructor; constructor.
  - intros Hsorted. apply StronglySorted_inv in Hsorted as [Hrest Hfirst].
    destruct (pe_timestamp first <? pe_timestamp row)%nat eqn:Hlater.
    + apply Nat.ltb_lt in Hlater. constructor; [constructor; assumption|].
      constructor; [lia|].
      eapply Forall_impl; [exact Hfirst|]. cbn beta. intros r Hr. lia.
    + apply Nat.ltb_ge in Hlater. constructor; [apply IH; exact Hrest|].
      apply (Permutation_Forall (Permutation_sym (insert_by_timestamp_perm row rest))).
      constructor; [exact Hlater | exact Hfirst].
Qed.

Lemma order_by_timestamp_desc_sorted rows : newest_first (order_by_timestamp_desc rows).
Proof.
  unfold order_by_timestamp_desc.
  assert (H : forall sorted,
             newest_first sorted ->
             newest_first (fold_left (fun sorted row => insert_by_timestamp row sorted)
                             rows sorted)).
  { induction rows as [|row rows IH]; intros sorted Hsorted; cbn [fold_left];
      [exact Hsorted|].
    apply IH, insert_by_timestamp_sorted, Hsorted. }
  apply H. constructor.
Qed.

(** X16: for an admitted request with the server reachable, the events
    route of a customer, named by an email without U+0000, answers 200
    with the rows of that customer, all of them and no row of anybody
    else, newest first; the route of all events answers every row of
    the ledger, newest first. *)
Theorem events_routes_answer_newest_first (req : Request) (w : World) :
  admitted req ->
  head (outages w) <> Some true ->
  (forall email,
     Js.present (query_email req) = Some email ->
     Pg.text email = true ->
     exists result,
       fst (user_events_GET NODE_ENV ADMIN_API_SECRET stack req w)
       = Ok (mkReply (rows result) 200)
       /\ (forall row, In row result
                       <-> In row (purchase_events (db w)) /\ pe_email row = email)
       /\ length result = length (List.filter (fun row => String.eqb (pe_email row) email)
                                    (purchase_events (db w)))
       /\ newest_first result)
  /\ exists result,
       fst (all_events_GET NODE_ENV ADMIN_API_SECRET stack req w)
       = Ok (mkReply (rows result) 200)
       /\ Permutation result (purchase_events (db w))
       /\ newest_first result.
Proof.
  intros Hin Hup. unfold user_events_GET, all_events_GET.
  rewrite (unauthorized_admitted req Hin). unfold try_catch, bind, ret. split.
  - intros email -> Htext. rewrite sql_select_run, (bool_decide_eq_false_2 _ Hup).
    cbn [forallb]. rewrite Htext. cbn [andb].
    eexists. split; [reflexivity|]. unfold select_events_of.
    split; [|split; [|apply order_by_timestamp_desc_sorted]].
    + intros row. split.
      * intros Hrow. apply (Permutation_in _ (order_by_timestamp_desc_perm _)) in Hrow.
        apply List.filter_In in Hrow as [Hrow Hemail].
        split; [exact Hrow | apply String.eqb_eq, Hemail].
      * intros [Hrow Hemail].
        apply (Permutation_in _ (Permutation_sym (order_by_timestamp_desc_perm _))).
        apply List.filter_In. split; [exact Hrow | apply String.eqb_eq, Hemail].
    + apply Permutation_length, order_by_timestamp_desc_perm.
  - rewrite sql_select_run, (bool_decide_eq_false_2 _ Hup). cbn [forallb].
    eexists. split; [reflexivity|].
    split; [apply order_by_timestamp_desc_perm | apply order_by_timestamp_desc_sorted].
Qed.

End AdminRoutes.

(** ** Logging in *)

Section Login.

Import Auth.

Variable Cookies : Type.
Variable getIronSession : Cookies -> SessionData + string.
Variable save : SessionData -> Cookies -> Cookies + string.
Variable destroy : Cookies -> Cookies.
Variable ADMIN_AUTH_ENABLED : option string.
Variable ADMIN_USERNAME : option string.
Variable ADMIN_PASSWORD : option string.

(** X17: the login route answers 200 exactly when the authentication is
    enabled, both credentials are configured and not empty, the request
    carries exactly these two strings, and the session library reads
    and saves the session; the cookies are then those of the saved
    admin session.  In every other case the cookies stay as they were.
    So no request logs in while a credential is not configured. *)
Theorem login_needs_the_configured_credentials
    (req_json : Credentials + string) (cookies : Cookies) :
  let answer := login_POST Cookies getIronSession save ADMIN_AUTH_ENABLED ADMIN_USERNAME
                  ADMIN_PASSWORD req_json cookies in
  (resp_status (fst answer) = 200%nat
   <-> ADMIN_AUTH_ENABLED = Some "true"
       /\ exists body adminUsername adminPassword session,
            req_json = inl body
            /\ Js.present ADMIN_USERNAME = Some adminUsername
            /\ Js.present ADMIN_PASSWORD = Some adminPassword
            /\ username body = Some adminUsername
            /\ password body = Some adminPassword
            /\ getIronSession cookies = inl session
            /\ save {| isAdmin := Some true |} cookies = inl (snd answer))
  /\ (resp_status (fst answer) <> 200%nat -> snd answer = cookies).
Proof.
  cbv zeta. unfold login_POST.
  destruct (decide (ADMIN_AUTH_ENABLED = Some "true")) as [Henabled | Hdisabled].
  2: { rewrite (bool_decide_eq_false_2 _ Hdisabled). cbn [negb fst snd].
       split; [split; [discriminate | intros [? _]; contradiction] | reflexivity]. }
  rewrite (bool_decide_eq_true_2 _ Henabled). cbn [negb].
  destruct req_json as [body|message].
  2: { cbn [fst snd]. split; [split; [discriminate|] | reflexivity].
       intros (_ & ? & ? & ? & ? & ? & _). discriminate. }
  destruct (Js.present ADMIN_USERNAME) as [adminUsername|].
  2: { cbn [fst snd]. split; [split; [discriminate|] | reflexivity].
       intros (_ & ? & ? & ? & ? & _ & ? & _). discriminate. }
  destruct (Js.present ADMIN_PASSWORD) as [adminPassword|].
  2: { cbn [fst snd]. split; [split; [discriminate|] | reflexivity].
       intros (_ & ? & ? & ? & ? & _ & _ & ? & _). discriminate. }
  destruct (decide (username body = Some adminUsername)) as [Huser | Huser].
  2: { rewrite (bool_decide_eq_false_2 _ Huser). cbn [andb fst snd].
       split; [split; [discriminate|] | reflexivity].
       intros (_ & ? & ? & ? & ? & [= <-] & [= <-] & _ & ? & _). contradiction. }
  destruct (decide (password body = Some adminPassword)) as [Hpass | Hpass].
  2: { rewrite (bool_decide_eq_false_2 _ Hpass), andb_false_r. cbn [fst snd].
       split; [split; [discriminate|] | reflexivity].
       intros (_ & ? & ? & ? & ? & [= <-] & _ & [= <-] & _ & ? & _). contradiction. }
  rewrite (bool_decide_eq_true_2 _ Huser), (bool_decide_eq_true_2 _ Hpass). cbn [andb].
  destruct (getIronSession cookies) as [session|message].
  2: { cbn [fst snd]. split; [split; [discriminate|] | reflexivity].
       intros (_ & ? & ? & ? & ? & _ & _ & _ & _ & _ & ? & _). discriminate. }
  destruct (save {| isAdmin := Some true |} cookies) as [saved|message] eqn:Hsave.
  - cbn [fst snd]. split; [|intros H; contradiction H; reflexivity].
    split; [|reflexivity]. intros _. split; [exact Henabled|].
    exists body, adminUsername, adminPassword, session. repeat split; assumption.
  - cbn [fst snd]. split; [split; [discriminate|] | reflexivity].
    intros (_ & ? & ? & ? & ? & _ & _ & _ & _ & _ & _ & ?). discriminate.
Qed.

End Login.

(** ** The middleware *)

Section MiddlewareProperties.

Import Middleware.

Variable RequestCookies : Type.
Variable SetCookie : Type.
Variable getIronSession : RequestCookies -> Auth.SessionData * list SetCookie + string.
Variable ALLOWED_ORIGINS : option string.
Variable ADMIN_AUTH_ENABLED : option string.
Variable NODE_ENV : option string.

Lemma split_not_empty separator s : split separator s <> [].
Proof.
  destruct s as [|c rest]; cbn [split]; [discriminate|].
  destruct (Ascii.eqb c separator); [discriminate|].
  destruct (split separator rest); discriminate.
Qed.

(** Joining the parts of a split with the separator gives the string
    back. *)
Lemma split_concat separator s :
  String.concat (String separator EmptyString) (split separator s) = s.
Proof.
  induction s as [|c rest IH]; [reflexivity|]. cbn [split].
  destruct (Ascii.eqb c separator) eqn:Hc.
  - apply Ascii.eqb_eq in Hc. subst c.
    pose proof (split_not_empty separator rest) as Hne.
    destruct (split separator rest) as [|first others]; [contradiction|].
    change (String.concat (String separator EmptyString) (EmptyString :: first :: others))
      with (String separator (String.concat (String separator EmptyString) (first :: others))).
    rewrite IH. reflexivity.
  - pose proof (split_not_empty separator rest) as Hne.
    destruct (split separator rest) as [|first others]; [contradiction|].
    destruct others as [|second others].
    + simpl in IH |- *. rewrite IH. reflexivity.
    + change (String.concat (String separator EmptyString) (String c first :: second :: others))
        with (String c (String.concat (String separator EmptyString)
                          (first :: second :: others))).
      rewrite IH. reflexivity.
Qed.

Lemma unique_In x l : In x (unique l) <-> In x l.
Proof.
  induction l as [|y l IH]; cbn [unique]; [reflexivity|]. simpl.
  rewrite List.filter_In, IH. split.
  - intros [-> | [Hin _]]; [left; reflexivity | right; exact Hin].
  - intros [-> | Hin]; [left; reflexivity|].
    destruct (String.eqb y x) eqn:Hyx.
    + apply String.eqb_eq in Hyx. left. exact Hyx.
    + right. split; [exact Hin | reflexivity].
Qed.

Lemma unique_NoDup l : List.NoDup (unique l).
Proof.
  induction l as [|y l IH]; cbn [unique]; [constructor|].
  constructor.
  - rewrite List.filter_In, String.eqb_refl. intros [_ H]. discriminate.
  - apply List.NoDup_filter, IH.
Qed.

(** X18: the allowed origins are http://localhost:3000 and the entries
    of [ALLOWED_ORIGINS] between its commas, as they stand (an entry is
    not trimmed), each once. *)
Theorem allowed_origins_are_default_and_listed :
  (forall o,
     In o (allowedOrigins ALLOWED_ORIGINS)
     <-> o = "http://localhost:3000"
         \/ exists listed, ALLOWED_ORIGINS = Some listed /\ In o (split ","%char listed))
  /\ List.NoDup (allowedOrigins ALLOWED_ORIGINS).
Proof.
  unfold allowedOrigins, envAllowedOrigins, defaultAllowedOrigins.
  destruct ALLOWED_ORIGINS as [listed|]; cbn [option_map].
  - assert (Hlength : (0 <? length (split ","%char listed))%nat = true).
    { pose proof (split_not_empty ","%char listed) as Hne.
      destruct (split ","%char listed); [contradiction | reflexivity]. }
    rewrite Hlength. split; [|apply unique_NoDup].
    intros o. rewrite unique_In. simpl. split.
    + intros [<- | Hin]; [left; reflexivity|].
      right. exists listed. split; [reflexivity | exact Hin].
    + intros [-> | (listed' & [= <-] & Hin)]; [left; reflexivity | right; exact Hin].
  - split.
    + intros o. simpl. split.
      * intros [<- | []]. left. reflexivity.
      * intros [-> | (listed & Hnone & _)]; [left; reflexivity | discriminate].
    + repeat constructor. simpl. tauto.
Qed.

(** The response headers of an outcome; a redirect has none of them. *)
Definition headers_of (outcome : Outcome SetCookie) : gmap string string :=
  match outcome with
  | next _ headers _ => headers
  | redirect _ _ _ => ∅
  | no_content _ headers _ => headers
  end.

Lemma includes_In l x : includes l x = true <-> In x l.
Proof.
  unfold includes. rewrite existsb_exists. split.
  - intros (y & Hin & Heq). apply String.eqb_eq in Heq. subst y. exact Hin.
  - intros Hin. exists x. split; [exact Hin | apply String.eqb_refl].
Qed.

Lemma allow_origin_header cookies request :
  headers_of (middleware RequestCookies SetCookie getIronSession ALLOWED_ORIGINS
                ADMIN_AUTH_ENABLED NODE_ENV cookies request)
    !! "Access-Control-Allow-Origin"
  = match admin_authentication RequestCookies SetCookie getIronSession ADMIN_AUTH_ENABLED
            cookies (pathname request) with
    | inl _ => allow_origin ALLOWED_ORIGINS NODE_ENV request
    | inr _ => None
    end.
Proof.
  unfold middleware.
  destruct (admin_authentication _ _ _ _ _ _) as [initial|early] eqn:Hadmin.
  - destruct (String.eqb (method request) "OPTIONS");
      destruct (allow_origin ALLOWED_ORIGINS NODE_ENV request); reflexivity.
  - unfold admin_authentication in Hadmin.
    destruct (String.prefix "/admin" (pathname request)); [|discriminate].
    destruct (bool_decide _); [|discriminate].
    destruct (getIronSession cookies) as [[session set]|message].
    + destruct (negb (Auth.is_admin session)); [|discriminate].
      injection Hadmin as <-. reflexivity.
    + injection Hadmin as <-. reflexivity.
Qed.

(** X19: the middleware never names an origin that is not allowed.  If
    a response carries Access-Control-Allow-Origin, its value is the
    Origin of the request and that origin is one of the allowed ones;
    or it is the wildcard, the request has no Origin, and the server
    does not run in production. *)
Theorem allow_origin_only_for_allowed (cookies : RequestCookies) (request : Request) o :
  headers_of (middleware RequestCookies SetCookie getIronSession ALLOWED_ORIGINS
                ADMIN_AUTH_ENABLED NODE_ENV cookies request)
    !! "Access-Control-Allow-Origin" = Some o ->
  (origin request = Some o /\ In o (allowedOrigins ALLOWED_ORIGINS))
  \/ (o = "*" /\ Js.present (origin request) = None /\ NODE_ENV <> Some "production").
Proof.
  rewrite allow_origin_header.
  destruct (admin_authentication _ _ _ _ _ _); [|discriminate].
  unfold allow_origin.
  destruct (Js.present (origin request)) as [o'|] eqn:Horigin.
  - destruct (includes (allowedOrigins ALLOWED_ORIGINS) o') eqn:Hallowed; [|discriminate].
    intros [= <-]. left. split; [|apply includes_In, Hallowed].
    unfold Js.present in Horigin. destruct (Js.truthy (origin request)); congruence.
  - destruct (decide (NODE_ENV = Some "production")) as [Hprod | Hdev].
    + rewrite (bool_decide_eq_true_2 _ Hprod). discriminate.
    + rewrite (bool_decide_eq_false_2 _ Hdev). intros [= <-]. right. repeat split. exact Hdev.
Qed.

(** X20: with the admin authentication enabled, a request for a path
    under /admin gets past the middleware only with a session the
    library could read and that is an admin's; every other such request
    is redirected to the login page, with the path asked for in
    [redirect_to]. *)
Theorem admin_pages_need_an_admin_session (cookies : RequestCookies) (request : Request) :
  String.prefix "/admin" (pathname request) = true ->
  ADMIN_AUTH_ENABLED = Some "true" ->
  match middleware RequestCookies SetCookie getIronSession ALLOWED_ORIGINS
          ADMIN_AUTH_ENABLED NODE_ENV cookies request with
  | redirect _ url _ =>
      url = {| redirect_to := Some (pathname request) |}
      /\ ~ exists session set_cookies,
             getIronSession cookies = inl (session, set_cookies)
             /\ Auth.isAdmin session = Some true
  | _ =>
      exists session set_cookies,
        getIronSession cookies = inl (session, set_cookies)
        /\ Auth.isAdmin session = Some true
  end.
Proof.
  intros Hadmin Henabled.
  assert (Hurl : loginUrl (pathname request) = {| redirect_to := Some (pathname request) |}).
  { unfold loginUrl. destruct (String.eqb (pathname request) "/login") eqn:Hlogin;
      [|reflexivity].
    apply String.eqb_eq in Hlogin. rewrite Hlogin in Hadmin. discriminate. }
  unfold middleware, admin_authentication.
  rewrite Hadmin, (bool_decide_eq_true_2 _ Henabled), Hurl.
  destruct (getIronSession cookies) as [[session set_cookies]|message].
  - unfold Auth.is_admin.
    destruct (Auth.isAdmin session) as [[]|] eqn:Hsession; cbn [negb].
    + destruct (String.eqb (method request) "OPTIONS");
        [destruct (allow_origin _ _ _)|]; eexists _, _; split; try reflexivity; exact Hsession.
    + split; [reflexivity|]. intros (? & ? & [= <- <-] & ?). congruence.
    + split; [reflexivity|]. intros (? & ? & [= <- <-] & ?). congruence.
  - split; [reflexivity|]. intros (? & ? & ? & _). discriminate.
Qed.

End MiddlewareProperties.

(** ** One switch for the authentication *)

Section AuthenticationSwitch.

Variable Cookies : Type.
Variable sessionOf : Cookies -> Auth.SessionData + string.
Variable save : Auth.SessionData -> Cookies -> Cookies + string.
Variable destroy : Cookies -> Cookies.
Variable RequestCookies : Type.
Variable SetCookie : Type.
Variable getIronSession : RequestCookies -> Auth.SessionData * list SetCookie + string.
Variable ALLOWED_ORIGINS : option string.
Variable ADMIN_AUTH_ENABLED : option string.
Variable ADMIN_USERNAME : option string.
Variable ADMIN_PASSWORD : option string.
Variable NODE_ENV : option string.

(** X21: [ADMIN_AUTH_ENABLED] switches the three places together.
    Unless it is the string true, the login and the logout route answer
    403 and leave the cookies alone, whatever the request and the
    session library do, and the middleware redirects no request and
    sets no cookie. *)
Theorem authentication_disabled_everywhere
    (req_json : Auth.Credentials + string) (cookies : Cookies)
    (request_cookies : RequestCookies) (request : Middleware.Request) :
  ADMIN_AUTH_ENABLED <> Some "true" ->
  (resp_status (fst (Auth.login_POST Cookies sessionOf save ADMIN_AUTH_ENABLED ADMIN_USERNAME
                       ADMIN_PASSWORD req_json cookies)) = 403%nat
   /\ snd (Auth.login_POST Cookies sessionOf save ADMIN_AUTH_ENABLED ADMIN_USERNAME
             ADMIN_PASSWORD req_json cookies) = cookies)
  /\ (resp_status (fst (Auth.logout_POST Cookies sessionOf destroy ADMIN_AUTH_ENABLED cookies))
      = 403%nat
      /\ snd (Auth.logout_POST Cookies sessionOf destroy ADMIN_AUTH_ENABLED cookies) = cookies)
  /\ match Middleware.middleware RequestCookies SetCookie getIronSession ALLOWED_ORIGINS
             ADMIN_AUTH_ENABLED NODE_ENV request_cookies request with
     | Middleware.redirect _ _ _ => False
     | Middleware.next _ _ set_cookies => set_cookies = []
     | Middleware.no_content _ _ set_cookies => set_cookies = []
     end.
Proof.
  intros Hdisabled.
  unfold Auth.login_POST, Auth.logout_POST, Middleware.middleware,
    Middleware.admin_authentication.
  rewrite (bool_decide_eq_false_2 _ Hdisabled). cbn [negb fst snd].
  repeat split.
  destruct (String.prefix "/admin" (Middleware.pathname request));
    destruct (String.eqb (Middleware.method request) "OPTIONS");
    try destruct (Middleware.allow_origin _ _ _); reflexivity.
Qed.

End AuthenticationSwitch.

(** ** The lemmas above at work *)

Section Examples.

Import Stripe Webhook.

(** A completed checkout for which no email can be found. *)
Definition S_no_customer : CheckoutSession :=
  {| cs_id := "cs_test_S6";
     cs_metadata := Some {[ "productId" := "prod_50euro" ]};
     cs_customer_details := Some (mkCustomerDetails None);
     cs_payment_intent := JStr "pi_S6" |}.


(** The world after the first notification of [Scenario.S1]. *)
Definition after_S1 : World :=
  snd (process (checkout_session_completed Scenario.S1) Scenario.fresh).

Definition twenty : Product := mkProduct "prod_20euro" "Product 20 Euro" 20 10.

Definition toISOString (now : nat) : string := "2025-06-01T12:00:00.000Z".

Definition stack (error : Pg.error) : string := "Error: at sql".

(** A request of the administrator, in production, for Ada. *)
Definition ask_ada : Admin.Request :=
  Admin.mkRequest (Some "s3cret") None (Some "ada@example.com").

(** A session library for the middleware whose cookie is the session
    itself. *)
Definition cookie_session (cookie : option bool)
  : Auth.SessionData * list unit + string :=
  inl (Auth.mkSessionData cookie, []).

Lemma redelivery_awards_every_time_witness :
  totalPoints "ada@example.com"
    (db (deliver (repeat (checkout_session_completed Scenario.S1) 3) Scenario.fresh))
  = 30.
Proof.
  apply (redelivery_awards_every_time Scenario.S1 "ada@example.com" "prod_20euro" twenty 3
           Scenario.fresh);
    try reflexivity; vm_compute; congruence.
Defined.


Lemma completed_checkout_of_unknown_customer_recorded_witness :
  exists row,
    rows_for "cs_test_S6"
      (db (snd (process (checkout_session_completed S_no_customer) Scenario.fresh))) = [row]
    /\ pe_email row = "unknown@example.com"
    /\ pe_status row = "ERROR_MISSING_METADATA".
Proof.
  apply (completed_checkout_of_unknown_customer_recorded S_no_customer Scenario.fresh);
    try reflexivity. discriminate.
Defined.

Lemma first_delivery_recorded_witness :
  rows_for "cs_test_S1" (db after_S1)
  = [ {| pe_id := 1;
         pe_timestamp := 0%nat;
         pe_email := "ada@example.com";
         pe_product_id := Some "prod_20euro";
         pe_stripe_session_id := "cs_test_S1";
         pe_status := "PAYMENT_SUCCESS";
         pe_seller_id := 0;
         pe_points_awarded := Some 10;
         pe_details := Some (JObj [("product_name", JStr "Product 20 Euro");
                                   ("price_paid", JNum 20);
                                   ("payment_intent", JStr "pi_S1")]) |} ].
Proof.
  apply (first_delivery_recorded Scenario.S1 "ada@example.com" "prod_20euro" twenty 0
           Scenario.fresh);
    try reflexivity. discriminate.
Defined.


Lemma cancellation_needs_the_secret_witness :
  exists body,
    LogCancellation.POST (Some "s3cret") toISOString
      (LogCancellation.mkRequest (Some "guess")
         (inl (LogCancellation.mkBody (Some "ada@example.com") (Some "prod_20euro")
                 (Some "cs_test_S9"))))
      Scenario.fresh
    = (Ok (mkResponse body 401), Scenario.fresh).
Proof.
  apply (cancellation_needs_the_secret (Some "s3cret") toISOString).
  right. discriminate.
Defined.

(** The customer comes back from the payment page of a session that
    has been paid. *)
Definition cancel_S1 : LogCancellation.Request :=
  LogCancellation.mkRequest (Some "s3cret")
    (inl (LogCancellation.mkBody (Some "ada@example.com") (Some "prod_20euro")
            (Some "cs_test_S1"))).

Lemma cancellation_of_recorded_session_refused_witness :
  answered (LogCancellation.POST (Some "s3cret") toISOString cancel_S1 after_S1)
  = Some 500%nat
  /\ purchase_events
       (db (snd (LogCancellation.POST (Some "s3cret") toISOString cancel_S1 after_S1)))
     = purchase_events (db after_S1).
Proof.
  exact (cancellation_of_recorded_session_refused (Some "s3cret") toISOString cancel_S1
           after_S1
           (LogCancellation.mkBody (Some "ada@example.com") (Some "prod_20euro")
              (Some "cs_test_S1"))
           "ada@example.com" "prod_20euro" "cs_test_S1" "cs_test_S1" twenty
           eq_refl eq_refl eq_refl eq_refl eq_refl eq_refl eq_refl eq_refl eq_refl).
Defined.

Lemma session_request_from_catalogue_witness :
  exists params product,
    CheckoutSessions.outbound (Some "https://shop.example") (fun s => s)
      (CheckoutSessions.mkBody (Some "ada@example.com") (Some "prod_35euro") (Some "7"))
    = Some params
    /\ In product products
    /\ CheckoutSessions.metadata params !! "productId" = Some (p_id product)
    /\ CheckoutSessions.metadata params !! "points" = Some (Js.toString (p_points product))
    /\ CheckoutSessions.metadata params !! "email" = Some "ada@example.com"
    /\ Some (CheckoutSessions.customer_email params) = Some "ada@example.com"
    /\ CheckoutSessions.product_data_name params = p_name product
    /\ CheckoutSessions.unit_amount params = p_price product * 100
    /\ CheckoutSessions.quantity params = 1
    /\ CheckoutSessions.currency params = "eur".
Proof.
  destruct (session_request_from_catalogue (Some "https://shop.example") (fun s => s)
              (CheckoutSessions.mkBody (Some "ada@example.com") (Some "prod_35euro") (Some "7"))
              _ eq_refl)
    as (product & Hproduct).
  eexists _, product. split; [reflexivity | exact Hproduct].
Defined.

Lemma points_route_reports_the_balance_witness :
  exists response,
    fst (Admin.user_points_GET (Some "production") (Some "s3cret") stack ask_ada after_S1)
    = Ok response
    /\ resp_status response = 200%nat
    /\ property "total_points" (resp_body response)
       = Some (JNum (totalPoints "ada@example.com" (db after_S1))).
Proof.
  apply (points_route_reports_the_balance (Some "production") (Some "s3cret") stack ask_ada
           after_S1 "ada@example.com").
  - right. reflexivity.
  - reflexivity.
  - reflexivity.
  - discriminate.
Defined.


Lemma events_routes_answer_newest_first_witness :
  (forall email,
     Js.present (Admin.query_email ask_ada) = Some email ->
     Pg.text email = true ->
     exists result,
       fst (Admin.user_events_GET (Some "production") (Some "s3cret") stack ask_ada after_S1)
       = Ok (Admin.mkReply (Admin.rows result) 200)
       /\ (forall row,
             In row result <-> In row (purchase_events (db after_S1)) /\ pe_email row = email)
       /\ length result
          = length (List.filter (fun row => String.eqb (pe_email row) email)
                      (purchase_events (db after_S1)))
       /\ newest_first result)
  /\ exists result,
       fst (Admin.all_events_GET (Some "production") (Some "s3cret") stack ask_ada after_S1)
       = Ok (Admin.mkReply (Admin.rows result) 200)
       /\ Permutation result (purchase_events (db after_S1))
       /\ newest_first result.
Proof.
  apply (events_routes_answer_newest_first (Some "production") (Some "s3cret") stack ask_ada
           after_S1).
  - right. reflexivity.
  - discriminate.
Defined.

Lemma allow_origin_only_for_allowed_witness :
  (Some "https://shop.example" = Some "https://shop.example"
   /\ In "https://shop.example"
        (Middleware.allowedOrigins (Some "https://shop.example,https://admin.example")))
  \/ ("https://shop.example" = "*"
      /\ Js.present (Some "https://shop.example") = None
      /\ Some "production" <> Some "production").
Proof.
  exact (allow_origin_only_for_allowed (option bool) unit cookie_session
           (Some "https://shop.example,https://admin.example") (Some "true")
           (Some "production") None
           (Middleware.mkRequest "/api/checkout_sessions" "POST" (Some "https://shop.example"))
           "https://shop.example" eq_refl).
Defined.

Lemma admin_pages_need_an_admin_session_witness :
  match Middleware.middleware (option bool) unit cookie_session None (Some "true")
          (Some "production") (Some false) (Middleware.mkRequest "/admin/events" "GET" None) with
  | Middleware.redirect _ url _ =>
      url = {| Middleware.redirect_to := Some "/admin/events" |}
      /\ ~ exists session set_cookies,
             cookie_session (Some false) = inl (session, set_cookies)
             /\ Auth.isAdmin session = Some true
  | _ =>
      exists session set_cookies,
        cookie_session (Some false) = inl (session, set_cookies)
        /\ Auth.isAdmin session = Some true
  end.
Proof.
  exact (admin_pages_need_an_admin_session (option bool) unit cookie_session None (Some "true")
           (Some "production") (Some false) (Middleware.mkRequest "/admin/events" "GET" None)
           eq_refl eq_refl).
Defined.

Lemma authentication_disabled_everywhere_witness :
  let login :=
    Auth.login_POST (option bool) (fun cookie => inl (Auth.mkSessionData cookie))
      (fun session _ => inl (Auth.isAdmin session)) None (Some "admin") (Some "hunter2")
      (inl (Auth.mkCredentials (Some "admin") (Some "hunter2"))) None in
  let logout :=
    Auth.logout_POST (option bool) (fun cookie => inl (Auth.mkSessionData cookie))
      (fun _ => None) None None in
  (resp_status (fst login) = 403%nat /\ snd login = None)
  /\ (resp_status (fst logout) = 403%nat /\ snd logout = None)
  /\ match Middleware.middleware (option bool) unit cookie_session None None
             (Some "production") None (Middleware.mkRequest "/admin/events" "GET" None) with
     | Middleware.redirect _ _ _ => False
     | Middleware.next _ _ set_cookies => set_cookies = []
     | Middleware.no_content _ _ set_cookies => set_cookies = []
     end.
Proof.
  apply (authentication_disabled_everywhere (option bool)
           (fun cookie => inl (Auth.mkSessionData cookie))
           (fun session _ => inl (Auth.isAdmin session)) (fun _ => None)
           (option bool) unit cookie_session None None (Some "admin") (Some "hunter2")
           (Some "production")
           (inl (Auth.mkCredentials (Some "admin") (Some "hunter2"))) None None
           (Middleware.mkRequest "/admin/events" "GET" None)).
  discriminate.
Defined.

End Examples.
